(** * Betamax: the interception adapter, its options and its configuration

    A shallow embedding of [betamax/options.py], [betamax/configure.py],
    [betamax/adapter.py] and [betamax/recorder.py].

    Python values are an inductive type [pyval]; a [dict] is an association
    list in insertion order with distinct keys; an exception is a value of
    [exn] returned through [result]; code that mutates an object threads the
    object's state through the state-and-exception monad [M].

    Strings are sequences of code points below 256.  Floating-point numbers
    are not part of [pyval].  Comparisons follow Python 3. *)

From Stdlib Require Import List String Ascii ZArith Lia Bool Arith.
From Stdlib Require Import DecimalString.
Import ListNotations.

Set Implicit Arguments.

Infix "+++" := String.append (at level 60, right associativity).

(** ** Exceptions and results *)

Inductive exn : Type :=
| BetamaxError (message : string)
| ValueError (message : string)
| TypeError
| AttributeError
| KeyError (key : string)
| IndexError
| OverflowError
| HostError (name : string).

Inductive result (A : Type) : Type :=
| Ok (a : A)
| Raise (e : exn).

Arguments Ok {A} a.
Arguments Raise {A} e.

(** A computation over a mutable state [S]: the state survives an exception,
    as the mutations of a Python object do. *)
Definition M (S A : Type) : Type := S -> result A * S.

Definition ret {S A : Type} (a : A) : M S A := fun s => (Ok a, s).

Definition raise {S A : Type} (e : exn) : M S A := fun s => (Raise e, s).

Definition bind {S A B : Type} (c : M S A) (k : A -> M S B) : M S B :=
  fun s =>
    match c s with
    | (Ok a, s') => k a s'
    | (Raise e, s') => (Raise e, s')
    end.

Definition get {S : Type} : M S S := fun s => (Ok s, s).

Definition put {S : Type} (s : S) : M S unit := fun _ => (Ok tt, s).

Definition lift {S A : Type} (r : result A) : M S A := fun s => (r, s).

Declare Scope py_scope.
Delimit Scope py_scope with py.

Notation "x <- c ;; k" := (bind c (fun x => k))
  (at level 100, c at next level, right associativity) : py_scope.
Notation "c ;;; k" := (bind c (fun _ => k))
  (at level 100, right associativity) : py_scope.

(** ** Python values *)

#[warnings="-register-all"]
Inductive pyval : Type :=
| PyNone
| PyBool (b : bool)
| PyInt (z : Z)
| PyStr (s : string)
| PyList (l : list pyval)
| PyDict (d : list (string * pyval)).

(** An insertion-ordered mapping with string keys. *)
Definition odict (V : Type) : Type := list (string * V).

Definition dict : Type := odict pyval.

Fixpoint dict_get {V : Type} (k : string) (d : odict V) : option V :=
  match d with
  | [] => None
  | (k', v) :: d' => if String.eqb k k' then Some v else dict_get k d'
  end.

Definition dict_contains {V : Type} (k : string) (d : odict V) : bool :=
  match dict_get k d with Some _ => true | None => false end.

(** [d.get(k, default)] *)
Definition dict_get_or {V : Type} (k : string) (default : V) (d : odict V) : V :=
  match dict_get k d with Some v => v | None => default end.

(** [d[k] = v]: an existing key keeps its position, a new key goes last. *)
Fixpoint dict_set {V : Type} (k : string) (v : V) (d : odict V) : odict V :=
  match d with
  | [] => [(k, v)]
  | (k', v') :: d' =>
      if String.eqb k k' then (k', v) :: d' else (k', v') :: dict_set k v d'
  end.

Fixpoint dict_remove {V : Type} (k : string) (d : odict V) : odict V :=
  match d with
  | [] => []
  | (k', v') :: d' =>
      if String.eqb k k' then d' else (k', v') :: dict_remove k d'
  end.

(** [del d[k]] *)
Definition dict_del {V : Type} (k : string) (d : odict V) : result (odict V) :=
  if dict_contains k d then Ok (dict_remove k d) else Raise (KeyError k).

(** [d.update(items)] *)
Definition dict_update {V : Type} (d : odict V) (items : list (string * V))
  : odict V :=
  fold_left (fun acc kv => dict_set (fst kv) (snd kv) acc) items d.

Definition dict_keys {V : Type} (d : odict V) : list string := map fst d.

(** The invariant of a Python dict: no key occurs twice. *)
Definition wf_dict {V : Type} (d : odict V) : Prop := NoDup (dict_keys d).

(** Truth value testing. *)
Definition py_truthy (v : pyval) : bool :=
  match v with
  | PyNone => false
  | PyBool b => b
  | PyInt z => negb (Z.eqb z 0)
  | PyStr s => negb (String.eqb s EmptyString)
  | PyList l => match l with [] => false | _ => true end
  | PyDict d => match d with [] => false | _ => true end
  end.

(** [a == b] *)
Fixpoint py_eq (a b : pyval) {struct a} : bool :=
  match a, b with
  | PyNone, PyNone => true
  | PyBool x, PyBool y => Bool.eqb x y
  | PyBool x, PyInt y => Z.eqb (Z.b2z x) y
  | PyInt x, PyBool y => Z.eqb x (Z.b2z y)
  | PyInt x, PyInt y => Z.eqb x y
  | PyStr x, PyStr y => String.eqb x y
  | PyList x, PyList y =>
      (fix go (x y : list pyval) {struct x} : bool :=
         match x, y with
         | [], [] => true
         | a' :: x', b' :: y' => py_eq a' b' && go x' y'
         | _, _ => false
         end) x y
  | PyDict x, PyDict y =>
      Nat.eqb (List.length x) (List.length y) &&
      (fix go (x : list (string * pyval)) : bool :=
         match x with
         | [] => true
         | (k, v) :: x' =>
             match dict_get k y with
             | Some v' => py_eq v v'
             | None => false
             end && go x'
         end) x
  | _, _ => false
  end.

(** [v in l] for a list [l] *)
Definition py_in (v : pyval) (l : list pyval) : bool := existsb (py_eq v) l.

Definition chars_of (s : string) : list string :=
  map (fun c => String c EmptyString) (list_ascii_of_string s).

(** [iter(v)]: the elements of a list, the characters of a string, the keys
    of a dict; anything else is not iterable. *)
Definition py_iter (v : pyval) : result (list pyval) :=
  match v with
  | PyList l => Ok l
  | PyStr s => Ok (map PyStr (chars_of s))
  | PyDict d => Ok (map PyStr (dict_keys d))
  | _ => Raise TypeError
  end.

(** [all(f(x) for x in l)]: stops at the first false value, and at the first
    exception. *)
Fixpoint py_all (f : pyval -> result bool) (l : list pyval) : result bool :=
  match l with
  | [] => Ok true
  | x :: l' =>
      match f x with
      | Ok true => py_all f l'
      | Ok false => Ok false
      | Raise e => Raise e
      end
  end.

(** [x > 0] *)
Definition py_gt_zero (v : pyval) : result bool :=
  match v with
  | PyInt z => Ok (Z.ltb 0 z)
  | PyBool b => Ok b
  | _ => Raise TypeError
  end.

(** ** Strings: [lower], [startswith], [sorted], [repr] and [str] *)

Definition lower_char (c : ascii) : ascii :=
  let n := nat_of_ascii c in
  if ((65 <=? n) && (n <=? 90))%nat then ascii_of_nat (n + 32)
  else if ((192 <=? n) && (n <=? 222) && negb (n =? 215))%nat
       then ascii_of_nat (n + 32)
       else c.

Fixpoint lower (s : string) : string :=
  match s with
  | EmptyString => EmptyString
  | String c s' => String (lower_char c) (lower s')
  end.

(** [s.startswith(prefix)] *)
Fixpoint startswith (s prefix : string) : bool :=
  match prefix with
  | EmptyString => true
  | String p prefix' =>
      match s with
      | EmptyString => false
      | String c s' => Ascii.eqb c p && startswith s' prefix'
      end
  end.

Fixpoint insert_sorted (x : string) (l : list string) : list string :=
  match l with
  | [] => [x]
  | y :: l' => if String.leb x y then x :: l else y :: insert_sorted x l'
  end.

(** [sorted(l)] for a list of strings. *)
Definition sorted (l : list string) : list string :=
  fold_right insert_sorted [] l.

Definition backslash : ascii := "092"%char.
Definition squote : ascii := "039"%char.
Definition dquote : ascii := "034"%char.

Definition hex_digit (n : nat) : ascii :=
  nth n (list_ascii_of_string "0123456789abcdef") "0"%char.

Definition hex2 (n : nat) : string :=
  String (hex_digit (n / 16)) (String (hex_digit (n mod 16)) EmptyString).

Definition printable (n : nat) : bool :=
  ((32 <=? n) && (n <=? 126) || (161 <=? n) && negb (n =? 173))%nat.

Definition escape_char (quote c : ascii) : string :=
  let n := nat_of_ascii c in
  if Ascii.eqb c backslash then String backslash (String backslash EmptyString)
  else if Ascii.eqb c quote then String backslash (String quote EmptyString)
  else if (n =? 9)%nat then String backslash "t"
  else if (n =? 10)%nat then String backslash "n"
  else if (n =? 13)%nat then String backslash "r"
  else if printable n then String c EmptyString
  else String backslash (String "x"%char (hex2 n)).

Definition has_char (c : ascii) (s : string) : bool :=
  existsb (Ascii.eqb c) (list_ascii_of_string s).

(** [repr(s)] for a string: single quotes unless the string holds a single
    quote and no double quote. *)
Definition repr_str (s : string) : string :=
  let quote := if has_char squote s && negb (has_char dquote s)
               then dquote else squote in
  String quote
    (String.concat EmptyString (map (escape_char quote) (list_ascii_of_string s))
     +++ String quote EmptyString).

Definition repr_int (z : Z) : string := NilZero.string_of_int (Z.to_int z).

Fixpoint py_repr (v : pyval) : string :=
  match v with
  | PyNone => "None"
  | PyBool true => "True"
  | PyBool false => "False"
  | PyInt z => repr_int z
  | PyStr s => repr_str s
  | PyList l =>
      "[" +++
      (fix go (l : list pyval) : string :=
         match l with
         | [] => EmptyString
         | x :: l' =>
             match l' with
             | [] => py_repr x
             | _ => py_repr x +++ ", " +++ go l'
             end
         end) l +++ "]"
  | PyDict d =>
      "{" +++
      (fix go (d : list (string * pyval)) : string :=
         match d with
         | [] => EmptyString
         | (k, x) :: d' =>
             match d' with
             | [] => repr_str k +++ ": " +++ py_repr x
             | _ => repr_str k +++ ": " +++ py_repr x +++ ", " +++ go d'
             end
         end) d +++ "}"
  end%string.

(** [str(v)], which is what [str.format] puts in a replacement field. *)
Definition py_str (v : pyval) : string :=
  match v with
  | PyStr s => s
  | _ => py_repr v
  end.

(** [container[key]] and [container[key] = value] with a string key: only a
    dict supports them. *)
Definition py_getitem (container : pyval) (key : string) : result pyval :=
  match container with
  | PyDict d =>
      match dict_get key d with
      | Some v => Ok v
      | None => Raise (KeyError key)
      end
  | _ => Raise TypeError
  end.

Definition py_setitem (container : pyval) (key : string) (value : pyval)
  : result pyval :=
  match container with
  | PyDict d => Ok (PyDict (dict_set key value d))
  | _ => Raise TypeError
  end.

Fixpoint str_list_eqb (a b : list string) : bool :=
  match a, b with
  | [], [] => true
  | x :: a', y :: b' => String.eqb x y && str_list_eqb a' b'
  | _, _ => false
  end.

(** ** Process-wide state

    The class attributes [Cassette.default_cassette_options] and
    [Configuration.CASSETTE_LIBRARY_DIR], and the keys of the two registries
    of [betamax.matchers] and [betamax.serializers]. *)

Record globals : Type := mkGlobals {
  default_cassette_options : pyval;
  CASSETTE_LIBRARY_DIR : pyval;
  matcher_registry : list string;
  serializer_registry : list string
}.

Definition set_default_cassette_options (g : globals) (v : pyval) : globals :=
  {| default_cassette_options := v;
     CASSETTE_LIBRARY_DIR := CASSETTE_LIBRARY_DIR g;
     matcher_registry := matcher_registry g;
     serializer_registry := serializer_registry g |}.

Definition set_CASSETTE_LIBRARY_DIR (g : globals) (v : pyval) : globals :=
  {| default_cassette_options := default_cassette_options g;
     CASSETTE_LIBRARY_DIR := v;
     matcher_registry := matcher_registry g;
     serializer_registry := serializer_registry g |}.

(** Modelled from the spec: the value of [Cassette.default_cassette_options]
    when the process starts ([betamax/cassette.py] is not among the sources).
    The keys are those the docstring of
    [Configuration.default_cassette_options] lists, the values those of
    [Options.defaults], which the spec gives as the defaults. *)
Definition initial_default_cassette_options : dict :=
  [ ("record_mode", PyStr "once");
    ("match_requests_on", PyList [PyStr "method"; PyStr "uri"]);
    ("re_record_interval", PyNone);
    ("placeholders", PyList []);
    ("preserve_exact_body_bytes", PyBool false) ]%string.

(** Modelled from the spec: the registries when the process starts, with the
    built-in matchers of the spec (method, URI, headers, body) and the
    serializer that [Options.defaults] names. *)
Definition initial_globals : globals :=
  {| default_cassette_options := PyDict initial_default_cassette_options;
     CASSETTE_LIBRARY_DIR := PyStr "vcr/cassettes";
     matcher_registry := ["method"; "uri"; "headers"; "body"]%string;
     serializer_registry := ["json"]%string |}.

(** ** options.py *)

Module Options.

Definition validate_record (record : pyval) : result bool :=
  Ok (py_in record
        [PyStr "all"; PyStr "new_episodes"; PyStr "none"; PyStr "once"]).

Definition validate_matchers (g : globals) (matchers : pyval) : result bool :=
  let available_matchers := map PyStr (matcher_registry g) in
  match py_iter matchers with
  | Ok ms => py_all (fun m => Ok (py_in m available_matchers)) ms
  | Raise e => Raise e
  end.

Definition validate_serializer (g : globals) (serializer : pyval)
  : result bool :=
  Ok (py_in serializer (map PyStr (serializer_registry g))).

(** [p.keys()] exists for a dict only. *)
Definition validate_placeholders (placeholders : pyval) : result bool :=
  let keys := ["placeholder"; "replace"]%string in
  match py_iter placeholders with
  | Ok ps =>
      py_all (fun p =>
                match p with
                | PyDict d => Ok (str_list_eqb (sorted (dict_keys d)) keys)
                | _ => Raise AttributeError
                end) ps
  | Raise e => Raise e
  end.

(** [(k, v) if k != 'record_mode' else ('record', v)] *)
Definition rename_record_mode (kv : string * pyval) : string * pyval :=
  if negb (String.eqb (fst kv) "record_mode") then kv
  else ("record"%string, snd kv).

(** [translate_cassette_options()]: the items of
    [Cassette.default_cassette_options], with [record_mode] renamed to
    [record]. *)
Definition translate_cassette_options (g : globals)
  : result (list (string * pyval)) :=
  match default_cassette_options g with
  | PyDict d => Ok (map rename_record_mode d)
  | _ => Raise AttributeError
  end.

(** The class attribute [Options.valid_options]. *)
Definition valid_options (g : globals) (key : string)
  : option (pyval -> result bool) :=
  if String.eqb key "match_requests_on" then Some (validate_matchers g)
  else if String.eqb key "re_record_interval" then
    Some (fun x => match x with PyNone => Ok true | _ => py_gt_zero x end)
  else if String.eqb key "record" then Some validate_record
  else if String.eqb key "serialize" then Some (validate_serializer g)
  else if String.eqb key "serialize_with" then Some (validate_serializer g)
  else if String.eqb key "preserve_exact_body_bytes" then
    Some (fun x => Ok (py_in x [PyBool true; PyBool false]))
  else if String.eqb key "placeholders" then Some validate_placeholders
  else None.

(** The class attribute [Options.defaults]. *)
Definition class_defaults : dict :=
  [ ("match_requests_on", PyList [PyStr "method"; PyStr "uri"]);
    ("re_record_interval", PyNone);
    ("record", PyStr "once");
    ("serialize", PyNone);
    ("serialize_with", PyStr "json");
    ("preserve_exact_body_bytes", PyBool false);
    ("placeholders", PyList []) ]%string.

Record t : Type := mkOptions {
  data : dict;
  defaults : dict
}.

(** [__delitem__] on [self.data] *)
Definition delitem (key : string) : M dict unit :=
  fun d =>
    match dict_del key d with
    | Ok d' => (Ok tt, d')
    | Raise e => (Raise e, d)
    end.

(** The loop of [validate] over the snapshot [list(self.data.items())]. *)
Fixpoint validate_items (g : globals) (items : list (string * pyval))
  : M dict unit :=
  match items with
  | [] => ret tt
  | (key, value) :: rest =>
      match valid_options g key with
      | None => (delitem key ;;; validate_items g rest)%py
      | Some is_valid =>
          (ok <- lift (is_valid value) ;;
           if negb ok then (delitem key ;;; validate_items g rest)
           else validate_items g rest)%py
      end
  end.

Definition validate (g : globals) : M dict unit :=
  fun d => validate_items g d d.

(** [Options(data)] *)
Definition init (g : globals) (raw : dict) : result t :=
  match validate g raw with
  | (Ok _, d) =>
      match translate_cassette_options g with
      | Ok items =>
          Ok {| data := d; defaults := dict_update class_defaults items |}
      | Raise e => Raise e
      end
  | (Raise e, _) => Raise e
  end.

(** [__getitem__]: [self.data.get(key, self.defaults.get(key))] *)
Definition getitem (self : t) (key : string) : pyval :=
  dict_get_or key (dict_get_or key PyNone (defaults self)) (data self).

Definition setitem (self : t) (key : string) (value : pyval) : t :=
  {| data := dict_set key value (data self); defaults := defaults self |}.

(** [__contains__] *)
Definition contains (self : t) (key : string) : bool :=
  dict_contains key (data self).

Definition items (self : t) : list (string * pyval) := data self.

End Options.

(** ** configure.py *)

Module Configuration.

(** An instance holds only the attributes that [__setattr__] hands to
    [object.__setattr__] and that are not properties of the class. *)
Record t : Type := mkConfiguration {
  attrs : dict
}.

Definition init : t := {| attrs := [] |}.

(** The property [cassette_library_dir] *)
Definition cassette_library_dir (self : t) (g : globals) : pyval :=
  CASSETTE_LIBRARY_DIR g.

(** The property [default_cassette_options] *)
Definition default_cassette_options (self : t) (g : globals) : pyval :=
  default_cassette_options g.

(** [__setattr__]: the state is the instance and the process-wide state. *)
Definition setattr (prop : string) (value : pyval) : M (t * globals) unit :=
  fun st =>
    let (self, g) := st in
    if String.eqb prop "preserve_exact_body_bytes" then
      match py_setitem (default_cassette_options self g) prop (PyBool true) with
      | Ok table => (Ok tt, (self, set_default_cassette_options g table))
      | Raise e => (Raise e, st)
      end
    else if String.eqb prop "cassette_library_dir" then
      (Ok tt, (self, set_CASSETTE_LIBRARY_DIR g value))
    else if String.eqb prop "default_cassette_options" then
      (Ok tt, (self, set_default_cassette_options g value))
    else
      (Ok tt, ({| attrs := dict_set prop value (attrs self) |}, g)).

(** [self.default_cassette_options['placeholders'].append({...})]: the list
    held by the table is extended, so the table holds the longer list. *)
Definition define_cassette_placeholder (placeholder replace : pyval)
  : M (t * globals) unit :=
  fun st =>
    let (self, g) := st in
    let table := default_cassette_options self g in
    match py_getitem table "placeholders" with
    | Ok (PyList l) =>
        let entry :=
          PyDict [("placeholder"%string, placeholder);
                  ("replace"%string, replace)] in
        match py_setitem table "placeholders" (PyList (l ++ [entry])) with
        | Ok table' => (Ok tt, (self, set_default_cassette_options g table'))
        | Raise e => (Raise e, st)
        end
    | Ok _ => (Raise AttributeError, st)
    | Raise e => (Raise e, st)
    end.

End Configuration.

(** ** The objects the adapter works with *)

(** The identity of a transport adapter object. *)
Inductive adapter_ref : Type :=
| HostAdapter (id : nat)
| Interceptor (id : nat).

Record Request : Type := mkRequest {
  method : string;
  url : string;
  headers : list (string * string);
  body : string
}.

Record Response : Type := mkResponse {
  status_code : Z;
  response_headers : list (string * string);
  content : string;
  connection : option adapter_ref
}.

Definition set_connection (r : Response) (a : option adapter_ref) : Response :=
  {| status_code := status_code r;
     response_headers := response_headers r;
     content := content r;
     connection := a |}.

(** Times are counted in microseconds: a [datetime] from [datetime.min], a
    [timedelta] as a signed duration. *)
Definition datetime : Type := Z.
Definition timedelta : Type := Z.

Definition us_per_day : Z := 86400000000.

(** [datetime.max - datetime.min] is 3652059 days less a microsecond. *)
Definition valid_datetime (t : datetime) : Prop :=
  (0 <= t < 3652059 * us_per_day)%Z.

(** [timedelta.max]: 999999999 days, 23:59:59.999999 *)
Definition timedelta_max : timedelta := (1000000000 * us_per_day - 1)%Z.

(** [timedelta(days)] for an integer number of days. *)
Definition timedelta_days (days : pyval) : result timedelta :=
  let of_int (d : Z) :=
    if (Z.abs d <=? 999999999)%Z then Ok (d * us_per_day)%Z
    else Raise OverflowError in
  match days with
  | PyInt d => of_int d
  | PyBool b => of_int (Z.b2z b)
  | _ => Raise TypeError
  end.

Record Interaction : Type := mkInteraction {
  recorded_request : Request;
  recorded_response : Response;
  recorded_at : datetime
}.

(** The attributes of a [Cassette] object that the adapter reads and writes,
    and the arguments its constructor is given. *)
Module Cassette.

Record t : Type := mkCassette {
  cassette_name : string;
  serialization_format : pyval;
  placeholders : pyval;
  record_mode : pyval;
  match_options : pyval;
  preserve_exact_body_bytes : pyval;
  cassette_library_dir : pyval;
  interactions : list Interaction
}.

Definition set_record_mode (c : t) (v : pyval) : t :=
  {| cassette_name := cassette_name c;
     serialization_format := serialization_format c;
     placeholders := placeholders c;
     record_mode := v;
     match_options := match_options c;
     preserve_exact_body_bytes := preserve_exact_body_bytes c;
     cassette_library_dir := cassette_library_dir c;
     interactions := interactions c |}.

Definition set_match_options (c : t) (v : pyval) : t :=
  {| cassette_name := cassette_name c;
     serialization_format := serialization_format c;
     placeholders := placeholders c;
     record_mode := record_mode c;
     match_options := v;
     preserve_exact_body_bytes := preserve_exact_body_bytes c;
     cassette_library_dir := cassette_library_dir c;
     interactions := interactions c |}.

Definition set_interactions (c : t) (l : list Interaction) : t :=
  {| cassette_name := cassette_name c;
     serialization_format := serialization_format c;
     placeholders := placeholders c;
     record_mode := record_mode c;
     match_options := match_options c;
     preserve_exact_body_bytes := preserve_exact_body_bytes c;
     cassette_library_dir := cassette_library_dir c;
     interactions := l |}.

End Cassette.

(** The keyword arguments of [send]. *)
Record send_args : Type := mkSendArgs {
  stream : bool;
  timeout : pyval;
  verify : pyval;
  cert : pyval;
  proxies : pyval
}.

Definition with_stream (args : send_args) (b : bool) : send_args :=
  {| stream := b;
     timeout := timeout args;
     verify := verify args;
     cert := cert args;
     proxies := proxies args |}.

(** What the adapter calls and does not define: the methods of [Cassette]
    and [Interaction] ([betamax/cassette] is not among the sources) and the
    [send] of the transport adapters of the host client.  A method of the
    cassette runs on the cassette's state and may raise. *)
Class Host : Type := mkHost {
  Cassette_init :
    string -> pyval -> pyval -> pyval -> pyval -> pyval -> result Cassette.t;
  find_match : Request -> M Cassette.t (option Interaction);
  is_recording : Cassette.t -> bool;
  save_interaction : Response -> Request -> M Cassette.t unit;
  eject : M Cassette.t unit;
  clear : M Cassette.t unit;
  earliest_recorded_date : Cassette.t -> datetime;
  as_response : Interaction -> Response;
  transport_send : adapter_ref -> Request -> send_args -> result Response
}.

(** The calls the adapter makes to its collaborators. *)
Inductive event : Type :=
| EvCassetteInit (cassette_name : string)
| EvFindMatch (request : Request)
| EvIsRecording
| EvTransportSend (adapter : adapter_ref) (request : Request) (args : send_args)
| EvSaveInteraction (response : Response) (request : Request)
| EvEject
| EvClear
| EvHttpAdapterClose.

(** ** adapter.py *)

Module BetamaxAdapter.

(** [self_ref] is the identity of the object, [calls] the calls it has made
    so far, oldest first. *)
Record t : Type := mkAdapter {
  self_ref : adapter_ref;
  cassette : option Cassette.t;
  cassette_name : option string;
  old_adapters : odict adapter_ref;
  serialize : pyval;
  options : dict;
  calls : list event
}.

(** [BetamaxAdapter(old_adapters=...)] *)
Definition init (ref : adapter_ref) (old : odict adapter_ref) : t :=
  {| self_ref := ref;
     cassette := None;
     cassette_name := None;
     old_adapters := old;
     serialize := PyNone;
     options := [];
     calls := [] |}.

Definition set_cassette (a : t) (c : option Cassette.t) : t :=
  {| self_ref := self_ref a;
     cassette := c;
     cassette_name := cassette_name a;
     old_adapters := old_adapters a;
     serialize := serialize a;
     options := options a;
     calls := calls a |}.

Definition log (ev : event) (a : t) : t :=
  {| self_ref := self_ref a;
     cassette := cassette a;
     cassette_name := cassette_name a;
     old_adapters := old_adapters a;
     serialize := serialize a;
     options := options a;
     calls := calls a ++ [ev] |}.

Definition set_load_arguments (a : t) (name : string) (ser : pyval)
  (opts : dict) : t :=
  {| self_ref := self_ref a;
     cassette := cassette a;
     cassette_name := Some name;
     old_adapters := old_adapters a;
     serialize := ser;
     options := opts;
     calls := calls a |}.

(** [find_adapter]: the first entry of [old_adapters], in the order of
    [items()], whose prefix the lowercased URL starts with; falling off the
    loop returns [None]. *)
Fixpoint find_adapter_in (items : list (string * adapter_ref)) (url : string)
  : option adapter_ref :=
  match items with
  | [] => None
  | (prefix, adapter) :: rest =>
      if startswith (lower url) prefix then Some adapter
      else find_adapter_in rest url
  end.

Definition find_adapter (a : t) (url : string) : option adapter_ref :=
  find_adapter_in (old_adapters a) url.

(** [cassette_exists]; [path_exists] is [os.path.exists], which is not
    consulted for a name that is unset or empty. *)
Definition cassette_exists (path_exists : string -> bool) (a : t) : bool :=
  match cassette_name a with
  | Some name =>
      if py_truthy (PyStr name) && path_exists name then true else false
  | None => false
  end.

Definition nl : string := String "010"%char EmptyString.

(** [UNHANDLED_REQUEST_EXCEPTION.format(...)] *)
Definition unhandled_request_message (request : Request) (c : Cassette.t)
  : string :=
  String.concat EmptyString
    [ "A request was made that could not be handled."; nl; nl;
      "A request was made to "; py_str (PyStr (url request));
      " that could not be found in ";
      py_str (PyStr (Cassette.cassette_name c)); "."; nl; nl;
      "The settings on the cassette are:"; nl; nl;
      "    - record_mode: "; py_str (Cassette.record_mode c); nl;
      "    - match_options "; py_str (Cassette.match_options c); "."; nl
    ]%string.

Section WithHost.

Context {host : Host}.

(** A call of a method of [self.cassette], recorded in [calls]. *)
Definition on_cassette {A : Type} (ev : event) (m : M Cassette.t A) : M t A :=
  fun a =>
    match cassette a with
    | Some c =>
        let (r, c') := m c in (r, set_cassette (log ev a) (Some c'))
    | None => (Raise AttributeError, a)
    end.

Definition close : M t unit :=
  fun a => (Ok tt, log EvHttpAdapterClose a).

Definition eject_cassette : M t unit :=
  (a <- get ;;
   match cassette a with
   | Some _ => on_cassette EvEject eject
   | None => ret tt
   end ;;;
   a <- get ;;
   put (set_cassette a None))%py.

(** The two assignments [load_cassette] makes on the new cassette. *)
Definition apply_options (options' : dict) (match_requests_on : pyval)
  (c : Cassette.t) : Cassette.t :=
  let c := match dict_get "record" options' with
           | Some mode => Cassette.set_record_mode c mode
           | None => c
           end in
  Cassette.set_match_options c match_requests_on.

(** [load_cassette]; [now] is what [datetime.utcnow()] returns in it. *)
Definition load_cassette (g : globals) (now : datetime)
  (name : string) (ser : pyval) (opts : Options.t) : M t unit :=
  (a <- get ;;
   let options' := dict_update (options a) (Options.items opts) in
   put (set_load_arguments a name ser options') ;;;
   let placeholders := dict_get_or "placeholders" (PyList []) options' in
   default_match <-
     lift (py_getitem (default_cassette_options g) "match_requests_on") ;;
   let match_requests_on :=
     dict_get_or "match_requests_on" default_match options' in
   let preserve := dict_get_or "preserve_exact_body_bytes" PyNone options' in
   c <- (fun a => (Cassette_init name ser placeholders
                     (dict_get_or "record" PyNone options') preserve
                     (dict_get_or "cassette_library_dir" PyNone options'),
                   log (EvCassetteInit name) a)) ;;
   let c := apply_options options' match_requests_on c in
   a <- get ;;
   put (set_cassette a (Some c)) ;;;
   re_record_interval <-
     (if py_truthy (dict_get_or "re_record_interval" PyNone options')
      then lift (timedelta_days
                   (dict_get_or "re_record_interval" PyNone options'))
      else ret timedelta_max) ;;
   if (re_record_interval <? now - earliest_recorded_date c)%Z
   then on_cassette EvClear clear
   else ret tt)%py.

Definition last_interaction (c : Cassette.t) : option Interaction :=
  match rev (Cassette.interactions c) with
  | i :: _ => Some i
  | [] => None
  end.

(** [send_and_record]: [find_adapter] returning [None] makes [adapter.send]
    an attribute error; the transport is always called with [stream=True]. *)
Definition send_and_record (request : Request) (args : send_args)
  : M t Interaction :=
  (a <- get ;;
   match find_adapter a (url request) with
   | None => raise AttributeError
   | Some adapter =>
       let args' := with_stream args true in
       response <-
         (fun a => (transport_send adapter request args',
                    log (EvTransportSend adapter request args') a)) ;;
       on_cassette (EvSaveInteraction response request)
         (save_interaction response request) ;;;
       a <- get ;;
       match cassette a with
       | Some c =>
           match last_interaction c with
           | Some i => ret i
           | None => raise IndexError
           end
       | None => raise AttributeError
       end
   end)%py.

Definition send (request : Request) (args : send_args) : M t Response :=
  (a <- get ;;
   match cassette a with
   | None => raise (BetamaxError "No cassette was specified or found.")
   | Some c =>
       interaction <-
         match Cassette.interactions c with
         | [] => ret None
         | _ :: _ => on_cassette (EvFindMatch request) (find_match request)
         end ;;
       interaction <-
         match interaction with
         | Some i => ret (Some i)
         | None =>
             recording <- on_cassette EvIsRecording
                            (fun c => (Ok (is_recording c), c)) ;;
             if (recording : bool)
             then (i <- send_and_record request args ;; ret (Some i))
             else ret None
         end ;;
       match interaction with
       | None =>
           a <- get ;;
           match cassette a with
           | Some c => raise (BetamaxError (unhandled_request_message request c))
           | None => raise AttributeError
           end
       | Some i =>
           a <- get ;;
           ret (set_connection (as_response i) (Some (self_ref a)))
       end
   end)%py.

End WithHost.

End BetamaxAdapter.

(** ** recorder.py *)

(** The client session of the host: its [adapters] mapping and its [mount].
    The engine relies on [mount] registering the adapter under the prefix and
    leaving the adapters of the other prefixes as they are ([lawful_mount]);
    the order in which [mount] keeps the entries is the host's business. *)
Record Session : Type := mkSession {
  adapters : odict adapter_ref
}.

Class HostClient : Type := mkHostClient {
  mount_adapters :
    string -> adapter_ref -> odict adapter_ref -> odict adapter_ref
}.

Definition lawful_mount (client : HostClient) : Prop :=
  (forall prefix adapter ads,
      dict_get prefix (mount_adapters prefix adapter ads) = Some adapter)
  /\ (forall prefix adapter ads k,
         k <> prefix ->
         dict_get k (mount_adapters prefix adapter ads) = dict_get k ads).

Definition mount {client : HostClient} (prefix : string)
  (adapter : adapter_ref) (s : Session) : Session :=
  {| adapters := mount_adapters prefix adapter (adapters s) |}.

(** [Session.mount] as the requests library has it: the assignment, then
    every shorter prefix is moved behind the new one. *)
Definition requests_mount (prefix : string) (adapter : adapter_ref)
  (ads : odict adapter_ref) : odict adapter_ref :=
  let ads1 := dict_set prefix adapter ads in
  let keys_to_move :=
    filter (fun k => (String.length k <? String.length prefix)%nat)
           (dict_keys ads1) in
  fold_left
    (fun acc key =>
       match dict_get key acc with
       | Some v => dict_set key v (dict_remove key acc)
       | None => acc
       end)
    keys_to_move ads1.

Definition requests_client : HostClient :=
  {| mount_adapters := requests_mount |}.

Module Betamax.

Record t : Type := mkBetamax {
  session : Session;
  http_adapters : odict adapter_ref;
  betamax_adapter : BetamaxAdapter.t;
  config : Configuration.t
}.

Definition set_session (self : t) (s : Session) : t :=
  {| session := s;
     http_adapters := http_adapters self;
     betamax_adapter := betamax_adapter self;
     config := config self |}.

Definition set_betamax_adapter (self : t) (a : BetamaxAdapter.t) : t :=
  {| session := session self;
     http_adapters := http_adapters self;
     betamax_adapter := a;
     config := config self |}.

(** A method of [self.betamax_adapter] run from the controller. *)
Definition on_adapter {A : Type} (m : M BetamaxAdapter.t A) : M t A :=
  fun self =>
    let (r, a') := m (betamax_adapter self) in (r, set_betamax_adapter self a').

(** [Betamax(session, cassette_library_dir, default_cassette_options)];
    [ref] is the identity of the adapter object it creates.  The state is
    the process-wide state. *)
Definition init (ref : nat) (s : Session) (cassette_library_dir : pyval)
  (default_cassette_options : dict) : M globals t :=
  fun g =>
    let http := adapters s in
    let cfg := Configuration.init in
    let self :=
      {| session := s;
         http_adapters := http;
         betamax_adapter := BetamaxAdapter.init (Interceptor ref) http;
         config := cfg |} in
    match Configuration.default_cassette_options cfg g with
    | PyDict table =>
        let g1 :=
          set_default_cassette_options g
            (PyDict (dict_update table default_cassette_options)) in
        if py_truthy cassette_library_dir then
          match Configuration.setattr "cassette_library_dir"
                  cassette_library_dir (cfg, g1) with
          | (Ok _, (cfg', g2)) =>
              (Ok {| session := s;
                     http_adapters := http;
                     betamax_adapter := betamax_adapter self;
                     config := cfg' |}, g2)
          | (Raise e, (_, g2)) => (Raise e, g2)
          end
        else (Ok self, g1)
    | _ => (Raise AttributeError, g)
    end.

(** [Betamax.configure()] *)
Definition configure : Configuration.t := Configuration.init.

(** [matcher_registry[name] = ...]: a new key goes last. *)
Definition registry_add (name : string) (keys : list string) : list string :=
  if existsb (String.eqb name) keys then keys else (keys ++ [name])%list.

(** [Betamax.register_request_matcher(matcher_class)], [name] being
    [matcher_class.name]. *)
Definition register_request_matcher (name : string) (g : globals) : globals :=
  {| default_cassette_options := default_cassette_options g;
     CASSETTE_LIBRARY_DIR := CASSETTE_LIBRARY_DIR g;
     matcher_registry := registry_add name (matcher_registry g);
     serializer_registry := serializer_registry g |}.

(** [Betamax.register_serializer(serializer_class)] *)
Definition register_serializer (name : string) (g : globals) : globals :=
  {| default_cassette_options := default_cassette_options g;
     CASSETTE_LIBRARY_DIR := CASSETTE_LIBRARY_DIR g;
     matcher_registry := matcher_registry g;
     serializer_registry := registry_add name (serializer_registry g) |}.

Definition current_cassette (self : t) : option Cassette.t :=
  BetamaxAdapter.cassette (betamax_adapter self).

Section WithHost.

Context {host : Host} {client : HostClient}.

Definition start (self : t) : t :=
  set_session self
    (fold_left
       (fun s k => mount k (BetamaxAdapter.self_ref (betamax_adapter self)) s)
       (dict_keys (http_adapters self)) (session self)).

Definition stop : M t unit :=
  (on_adapter BetamaxAdapter.eject_cassette ;;;
   on_adapter BetamaxAdapter.close ;;;
   self <- get ;;
   put (set_session self
          (fold_left (fun s kv => mount (fst kv) (snd kv) s)
                     (http_adapters self) (session self))))%py.

(** [__enter__] *)
Definition enter : M t t :=
  fun self => let self' := start self in (Ok self', self').

(** [__exit__] with its arguments [ex_args]: of each only the truth value
    is used; the method returns [False] or, falling off its end, [None]. *)
Definition exit (ex_args : list pyval) : M t pyval :=
  (stop ;;;
   if existsb py_truthy ex_args then ret (PyBool false) else ret PyNone)%py.

(** [use_cassette(cassette_name, **kwargs)]; [can_be_loaded] is the static
    method of [Cassette] ([betamax/cassette.py] is not among the sources),
    [now] what [datetime.utcnow()] returns in [load_cassette].  The method
    returns [self], which is the state. *)
Definition use_cassette
  (can_be_loaded : pyval -> string -> pyval -> pyval -> result bool)
  (g : globals) (now : datetime) (cassette_name : string) (kwargs : dict)
  : M t unit :=
  (kwargs <- lift (Options.init g kwargs) ;;
   self <- get ;;
   let serialize :=
     if py_truthy (Options.getitem kwargs "serialize")
     then Options.getitem kwargs "serialize"
     else Options.getitem kwargs "serialize_with" in
   let dir := Configuration.cassette_library_dir (config self) g in
   let kwargs := Options.setitem kwargs "cassette_library_dir" dir in
   can_load <- lift (can_be_loaded dir cassette_name serialize
                       (Options.getitem kwargs "record")) ;;
   if (can_load : bool)
   then on_adapter
          (BetamaxAdapter.load_cassette g now cassette_name serialize kwargs)
   else raise (ValueError
                 "Cassette must have a valid name and may not be None."))%py.

End WithHost.

End Betamax.

(** ** A sample environment

    A cassette class, a transport and a clock to run the adapter on concrete
    inputs: the cassette file holds [stored] when it is loaded, every
    transport answers [live], and an interaction is recorded at [clock].
    Lookup returns the first stored interaction with the method and the URL
    of the request, and nothing in mode [all]; recording is permitted in the
    modes [all] and [new_episodes], and in mode [once] when the file was
    empty. *)

Section Sample.

Variable stored : list Interaction.
Variable live : Response.
Variable clock : datetime.

Definition sample_init (name : string)
  (ser placeholders mode preserve dir : pyval) : result Cassette.t :=
  Ok {| Cassette.cassette_name := name;
        Cassette.serialization_format := ser;
        Cassette.placeholders := placeholders;
        Cassette.record_mode :=
          match mode with PyNone => PyStr "once" | _ => mode end;
        Cassette.match_options := PyList [];
        Cassette.preserve_exact_body_bytes := preserve;
        Cassette.cassette_library_dir := dir;
        Cassette.interactions := stored |}.

Definition sample_find_match (request : Request)
  : M Cassette.t (option Interaction) :=
  fun c =>
    (Ok (if py_eq (Cassette.record_mode c) (PyStr "all") then None
         else find (fun i =>
                      String.eqb (method (recorded_request i)) (method request)
                      && String.eqb (url (recorded_request i)) (url request))
                   (Cassette.interactions c)),
     c).

Definition sample_is_recording (c : Cassette.t) : bool :=
  if py_eq (Cassette.record_mode c) (PyStr "none") then false
  else if py_eq (Cassette.record_mode c) (PyStr "once")
       then match stored with [] => true | _ => false end
       else true.

Definition sample_save_interaction (response : Response) (request : Request)
  : M Cassette.t unit :=
  fun c =>
    (Ok tt,
     Cassette.set_interactions c
       (Cassette.interactions c ++
        [ {| recorded_request := request;
             recorded_response := response;
             recorded_at := clock |} ])).

Definition sample_earliest_recorded_date (c : Cassette.t) : datetime :=
  match Cassette.interactions c with
  | [] => 0%Z
  | i :: rest => fold_left Z.min (map recorded_at rest) (recorded_at i)
  end.

Definition sample_host : Host :=
  {| Cassette_init := sample_init;
     find_match := sample_find_match;
     is_recording := sample_is_recording;
     save_interaction := sample_save_interaction;
     eject := fun c => (Ok tt, c);
     clear := fun c => (Ok tt, Cassette.set_interactions c []);
     earliest_recorded_date := sample_earliest_recorded_date;
     as_response := recorded_response;
     transport_send := fun _ _ _ => Ok live |}.

End Sample.

(** ** The vocabulary of the statements *)

(** [part] occurs in [msg]. *)
Definition names (msg part : string) : Prop :=
  exists before after, msg = before +++ part +++ after.

(** [adapter] is registered under the longest registered prefix that the
    lowercased URL starts with. *)
Definition selects_longest_prefix (old : odict adapter_ref) (u : string)
  (adapter : adapter_ref) : Prop :=
  exists prefix,
    In (prefix, adapter) old
    /\ startswith (lower u) prefix = true
    /\ forall p h, In (p, h) old -> startswith (lower u) p = true ->
                   String.length p <= String.length prefix.

(** [adapter], under [prefix], is the first entry in the order of the
    mapping whose prefix the lowercased URL starts with. *)
Definition first_matching_entry (old : odict adapter_ref) (u : string)
  (prefix : string) (adapter : adapter_ref) : Prop :=
  exists before after,
    old = (before ++ (prefix, adapter) :: after)%list
    /\ startswith (lower u) prefix = true
    /\ forall p h, In (p, h) before -> startswith (lower u) p = false.

(** The entries come by non-increasing length of their prefixes. *)
Fixpoint longest_first (old : odict adapter_ref) : bool :=
  match old with
  | [] => true
  | (p, _) :: rest =>
      forallb (fun kv => String.length (fst kv) <=? String.length p) rest
      && longest_first rest
  end.

Definition is_transport_send (ev : event) : bool :=
  match ev with EvTransportSend _ _ _ => true | _ => false end.

(** The option read as a number of days. *)
Definition interval_in_days (interval : pyval) : option Z :=
  match interval with
  | PyInt d => Some d
  | PyBool b => Some (Z.b2z b)
  | _ => None
  end.

(** A truthy interval is configured and [elapsed] strictly exceeds it. *)
Definition interval_exceeded (interval : pyval) (elapsed : timedelta) : Prop :=
  py_truthy interval = true
  /\ exists days, interval_in_days interval = Some days
                  /\ (days * us_per_day < elapsed)%Z.

(** The value a key is left with after [update] comes from the last item
    that has the key. *)
Fixpoint last_value {V : Type} (k : string) (items : list (string * V))
  : option V :=
  match items with
  | [] => None
  | (k0, v0) :: rest =>
      match last_value k rest with
      | Some v => Some v
      | None => if String.eqb k k0 then Some v0 else None
      end
  end.

(** The table of the process-wide defaults leaves the default record mode
    at [once]: it has no key [record], and no [record_mode] other than
    [once]. *)
Definition default_mode_is_once (table : dict) : Prop :=
  dict_get "record" table = None
  /\ (dict_get "record_mode" table = None
      \/ dict_get "record_mode" table = Some (PyStr "once")).

(** What the registry says of an entry: an unknown key is not valid. *)
Definition entry_valid (g : globals) (kv : string * pyval) : result bool :=
  match Options.valid_options g (fst kv) with
  | Some is_valid => is_valid (snd kv)
  | None => Ok false
  end.

Definition survives (g : globals) (kv : string * pyval) : bool :=
  match entry_valid g kv with
  | Ok b => b
  | Raise _ => false
  end.


Definition placeholder_entry (placeholder replace : pyval) : pyval :=
  PyDict [("placeholder"%string, placeholder); ("replace"%string, replace)].

Section Lookup.

Context {host : Host}.

(** The lookup of [send] finds nothing and leaves the cassette as [c']:
    either the cassette holds no interaction, and [find_match] is not
    called, or [find_match] returns [None]. *)
Definition lookup_misses (request : Request) (c c' : Cassette.t) : Prop :=
  (Cassette.interactions c = [] /\ c' = c) \/
  (Cassette.interactions c <> [] /\ find_match request c = (Ok None, c')).

End Lookup.

(** ** Sample inputs *)

Definition sample_request : Request :=
  {| method := "GET";
     url := "HTTP://Example.com/get";
     headers := [];
     body := EmptyString |}.

Definition sample_args : send_args :=
  {| stream := false;
     timeout := PyNone;
     verify := PyBool true;
     cert := PyNone;
     proxies := PyNone |}.

Definition sample_live : Response :=
  {| status_code := 200%Z;
     response_headers := [("Content-Type", "text/plain")]%string;
     content := "ok";
     connection := None |}.

Definition sample_cassette (mode : string) : Cassette.t :=
  {| Cassette.cassette_name := "example";
     Cassette.serialization_format := PyStr "json";
     Cassette.placeholders := PyList [];
     Cassette.record_mode := PyStr mode;
     Cassette.match_options := PyList [PyStr "method"; PyStr "uri"];
     Cassette.preserve_exact_body_bytes := PyBool false;
     Cassette.cassette_library_dir := PyStr "vcr/cassettes";
     Cassette.interactions := [] |}.

(** The adapters of a fresh session of the host client. *)
Definition default_adapters : odict adapter_ref :=
  [("https://", HostAdapter 0); ("http://", HostAdapter 1)]%string.

Definition sample_adapter (old : odict adapter_ref) (mode : string)
  : BetamaxAdapter.t :=
  BetamaxAdapter.set_cassette
    (BetamaxAdapter.init (Interceptor 0) old) (Some (sample_cassette mode)).

Definition host0 : Host := sample_host [] sample_live 1000%Z.

(** An order of the preserved handlers in which a shorter prefix comes
    first. *)
Definition shadowing_adapters : odict adapter_ref :=
  [("http://", HostAdapter 0); ("http://example.com/", HostAdapter 1)]%string.

(** A cassette file with one interaction, recorded a thousand days before
    [sample_now]. *)
Definition old_interaction : Interaction :=
  {| recorded_request := sample_request;
     recorded_response := sample_live;
     recorded_at := (738000 * us_per_day)%Z |}.

Definition sample_now : datetime := (739000 * us_per_day)%Z.

Definition host1 : Host := sample_host [old_interaction] sample_live sample_now.

Definition options_of (g : globals) (raw : dict) : Options.t :=
  match Options.init g raw with
  | Ok o => o
  | Raise _ => {| Options.data := []; Options.defaults := [] |}
  end.

Definition one_day_options : Options.t :=
  options_of initial_globals [("re_record_interval"%string, PyInt 1)].

(** What the sample cassette class builds for the options above. *)
Definition loaded_cassette : Cassette.t :=
  {| Cassette.cassette_name := "example";
     Cassette.serialization_format := PyStr "json";
     Cassette.placeholders := PyList [];
     Cassette.record_mode := PyStr "once";
     Cassette.match_options := PyList [];
     Cassette.preserve_exact_body_bytes := PyNone;
     Cassette.cassette_library_dir := PyNone;
     Cassette.interactions := [old_interaction] |}.

(** ** More vocabulary and sample inputs *)

(** An item that [validate_placeholders] accepts: a dict with exactly the
    keys [placeholder] and [replace]. *)
Definition is_placeholder (p : pyval) : Prop :=
  exists d, p = PyDict d
            /\ (dict_keys d = ["placeholder"; "replace"]%string
                \/ dict_keys d = ["replace"; "placeholder"]%string).

Definition is_find_match (ev : event) : bool :=
  match ev with EvFindMatch _ => true | _ => false end.

(** The call [send] makes to look the request up in the cassette [c]: none
    when the cassette holds no interaction. *)
Definition lookup_calls (request : Request) (c : Cassette.t) : list event :=
  match Cassette.interactions c with
  | [] => []
  | _ :: _ => [EvFindMatch request]
  end.

(** The serializer [use_cassette] settles on: the deprecated [serialize]
    when it is true, else [serialize_with]. *)
Definition chosen_serializer (opts : Options.t) : pyval :=
  if py_truthy (Options.getitem opts "serialize")
  then Options.getitem opts "serialize"
  else Options.getitem opts "serialize_with".

Definition with_transport (h : Host)
  (send : adapter_ref -> Request -> send_args -> result Response) : Host :=
  {| Cassette_init := @Cassette_init h;
     find_match := @find_match h;
     is_recording := @is_recording h;
     save_interaction := @save_interaction h;
     eject := @eject h;
     clear := @clear h;
     earliest_recorded_date := @earliest_recorded_date h;
     as_response := @as_response h;
     transport_send := send |}.

Definition with_eject (h : Host) (ej : M Cassette.t unit) : Host :=
  {| Cassette_init := @Cassette_init h;
     find_match := @find_match h;
     is_recording := @is_recording h;
     save_interaction := @save_interaction h;
     eject := ej;
     clear := @clear h;
     earliest_recorded_date := @earliest_recorded_date h;
     as_response := @as_response h;
     transport_send := @transport_send h |}.

(** A host whose transports are unreachable, and one that cannot write the
    cassette file. *)
Definition offline_host : Host :=
  with_transport host0 (fun _ _ _ => Raise (HostError "ConnectionError")).

Definition read_only_host : Host :=
  with_eject host0 (fun c => (Raise (HostError "IOError"), c)).

Definition mixed_options : dict :=
  [ ("record", PyStr "bogus");
    ("match_requests_on", PyList [PyStr "method"; PyStr "body"]);
    ("verbose", PyBool true);
    ("re_record_interval", PyInt 0);
    ("placeholders",
     PyList [PyDict [("replace", PyStr "secret123");
                     ("placeholder", PyStr "<API_KEY>")]]);
    ("preserve_exact_body_bytes", PyInt 1);
    ("serialize_with", PyStr "yaml") ]%string.

Definition recorded_cassette (mode : string) : Cassette.t :=
  Cassette.set_interactions (sample_cassette mode) [old_interaction].

Definition sample_controller : Betamax.t :=
  {| Betamax.session := {| adapters := default_adapters |};
     Betamax.http_adapters := default_adapters;
     Betamax.betamax_adapter := sample_adapter default_adapters "once";
     Betamax.config := Configuration.init |}.

Definition all_mode_options : Options.t :=
  options_of initial_globals [("record"%string, PyStr "all")].

Definition huge_interval_options : Options.t :=
  options_of initial_globals
    [("re_record_interval"%string, PyInt 1000000000)].

(** [Cassette.can_be_loaded] for a library without files: a cassette can be
    loaded in the recording modes only. *)
Definition sample_can_be_loaded (dir : pyval) (name : string)
  (serialize record : pyval) : result bool :=
  Ok (py_in record [PyStr "once"; PyStr "all"; PyStr "new_episodes"]).

(** The session of [default_adapters] after [http://] has been mounted on
    another adapter. *)
Definition remounted_session : Session :=
  {| adapters := requests_mount "http://" (HostAdapter 9) default_adapters |}.

(** [part] occurs in [msg], as a test. *)
Fixpoint occurs (part msg : string) : bool :=
  startswith msg part
  || match msg with
     | EmptyString => false
     | String _ msg' => occurs part msg'
     end.

(** Modelled from the spec: the storage path of a cassette, derived from
    the library directory, the name and the extension of the serializer
    ([betamax/cassette.py] and the serializers are not among the sources). *)
Definition storage_path (c : Cassette.t) : string :=
  py_str (Cassette.cassette_library_dir c) +++ "/"
  +++ Cassette.cassette_name c +++ "."
  +++ py_str (Cassette.serialization_format c).

(** A request that the cassette of [old_interaction] does not hold. *)
Definition other_request : Request :=
  {| method := "GET";
     url := "http://example.com/other";
     headers := [];
     body := EmptyString |}.

(** * Properties *)

(** ** Evaluations *)

Example py_str_list :
  py_str (PyList [PyStr "method"; PyStr "uri"]) = "['method', 'uri']"%string.
Proof. reflexivity. Qed.

Example py_repr_mixed :
  py_repr (PyDict [("a'b"%string, PyInt (-12));
                   ("n"%string, PyList [PyNone; PyBool true; PyInt 0])])
  = String.concat EmptyString
      ["{"; String dquote "a'b";
       String dquote ": -12, 'n': [None, True, 0]}"]%string.
Proof. reflexivity. Qed.

Example lower_url : lower "HTTP://Example.COM/Get" = "http://example.com/get"%string.
Proof. reflexivity. Qed.

Example sorted_keys :
  sorted ["replace"; "placeholder"]%string = ["placeholder"; "replace"]%string.
Proof. reflexivity. Qed.

Example options_validated :
  Options.validate initial_globals
    [ ("record", PyStr "bogus");
      ("match_requests_on", PyList [PyStr "method"; PyStr "body"]);
      ("verbose", PyBool true);
      ("re_record_interval", PyInt 0);
      ("placeholders",
       PyList [PyDict [("replace", PyStr "secret123");
                       ("placeholder", PyStr "<API_KEY>")]]);
      ("preserve_exact_body_bytes", PyInt 1);
      ("serialize_with", PyStr "yaml") ]%string
  = (Ok tt,
     [ ("match_requests_on", PyList [PyStr "method"; PyStr "body"]);
       ("placeholders",
        PyList [PyDict [("replace", PyStr "secret123");
                        ("placeholder", PyStr "<API_KEY>")]]);
       ("preserve_exact_body_bytes", PyInt 1) ]%string).
Proof. reflexivity. Qed.

Example options_bogus_record :
  Options.init initial_globals [("record"%string, PyStr "bogus")]
  = Ok {| Options.data := [];
          Options.defaults :=
            [ ("match_requests_on", PyList [PyStr "method"; PyStr "uri"]);
              ("re_record_interval", PyNone);
              ("record", PyStr "once");
              ("serialize", PyNone);
              ("serialize_with", PyStr "json");
              ("preserve_exact_body_bytes", PyBool false);
              ("placeholders", PyList []) ]%string |}.
Proof. reflexivity. Qed.

Example options_placeholders_without_keys :
  Options.init initial_globals [("placeholders"%string, PyList [PyStr "x"])]
  = Raise AttributeError.
Proof. reflexivity. Qed.

Example find_adapter_default :
  BetamaxAdapter.find_adapter (sample_adapter default_adapters "once")
    "HTTP://Example.com/get" = Some (HostAdapter 1)
  /\ BetamaxAdapter.find_adapter (sample_adapter default_adapters "once")
       "ftp://example.com/" = None.
Proof. split; reflexivity. Qed.

(** ** Mappings *)

Section DictFacts.

Variable V : Type.

Implicit Types (d : odict V) (k : string) (v : V).

Lemma dict_get_set_same k v d : dict_get k (dict_set k v d) = Some v.
Proof.
  induction d as [|[k' v'] d IH]; simpl.
  - now rewrite String.eqb_refl.
  - destruct (String.eqb k k') eqn:E; simpl; rewrite E; auto.
Qed.

Lemma dict_get_set_other k k' v d :
  k <> k' -> dict_get k (dict_set k' v d) = dict_get k d.
Proof.
  intros Hne. induction d as [|[k0 v0] d IH]; simpl.
  - destruct (String.eqb_spec k k'); congruence.
  - destruct (String.eqb_spec k' k0) as [->|Hk0]; simpl.
    + destruct (String.eqb_spec k k0); congruence.
    + destruct (String.eqb_spec k k0); auto.
Qed.

Lemma dict_get_remove_other k k' d :
  k <> k' -> dict_get k (dict_remove k' d) = dict_get k d.
Proof.
  intros Hne. induction d as [|[k0 v0] d IH]; simpl; auto.
  destruct (String.eqb_spec k' k0) as [->|Hk0]; simpl.
  - destruct (String.eqb_spec k k0); congruence.
  - destruct (String.eqb_spec k k0); auto.
Qed.

Lemma dict_get_In k v d : dict_get k d = Some v -> In (k, v) d.
Proof.
  induction d as [|[k0 v0] d IH]; simpl; [discriminate|].
  destruct (String.eqb_spec k k0) as [->|Hk0]; intros H.
  - left. congruence.
  - right. auto.
Qed.

Lemma dict_get_None_keys k d : dict_get k d = None -> ~ In k (dict_keys d).
Proof.
  induction d as [|[k0 v0] d IH]; simpl; [tauto|].
  destruct (String.eqb_spec k k0) as [->|Hk0]; [discriminate|].
  intros H [Heq|Hin]; [congruence | now apply IH].
Qed.

Lemma In_dict_get k v d : wf_dict d -> In (k, v) d -> dict_get k d = Some v.
Proof.
  unfold wf_dict. induction d as [|[k0 v0] d IH]; simpl; [tauto|].
  intros Hnd [Heq|Hin].
  - inversion Heq; subst. now rewrite String.eqb_refl.
  - inversion Hnd as [|? ? Hnotin Hnd']; subst.
    destruct (String.eqb_spec k k0) as [->|Hk0]; auto.
    exfalso. apply Hnotin. change k0 with (fst (k0, v)). now apply in_map.
Qed.

Lemma dict_keys_set k v d :
  dict_keys (dict_set k v d) =
  if dict_contains k d then dict_keys d else (dict_keys d ++ [k])%list.
Proof.
  unfold dict_contains. induction d as [|[k0 v0] d IH]; simpl; auto.
  destruct (String.eqb_spec k k0) as [->|Hk0]; simpl; auto.
  rewrite IH. destruct (dict_get k d); auto.
Qed.

Lemma wf_dict_set k v d : wf_dict d -> wf_dict (dict_set k v d).
Proof.
  unfold wf_dict. intros Hnd. rewrite dict_keys_set. unfold dict_contains.
  destruct (dict_get k d) eqn:E; auto.
  apply NoDup_app; auto.
  - constructor; [simpl; tauto | constructor].
  - intros x Hx [<-|[]]. revert Hx. now apply dict_get_None_keys.
Qed.


Lemma dict_update_get_other k d (items : list (string * V)) :
  ~ In k (map fst items) -> dict_get k (dict_update d items) = dict_get k d.
Proof.
  unfold dict_update. revert d.
  induction items as [|[k0 v0] items IH]; simpl; auto.
  intros d Hnot. rewrite IH by tauto.
  apply dict_get_set_other. intros ->. tauto.
Qed.

Lemma dict_update_get_In k v d (items : list (string * V)) :
  NoDup (map fst items) -> In (k, v) items ->
  dict_get k (dict_update d items) = Some v.
Proof.
  unfold dict_update. revert d.
  induction items as [|[k0 v0] items IH]; simpl; [tauto|].
  intros d Hnd [Heq|Hin]; inversion Hnd as [|? ? Hnotin Hnd']; subst.
  - inversion Heq; subst.
    change (dict_get k (dict_update (dict_set k v d) items) = Some v).
    rewrite dict_update_get_other by assumption.
    apply dict_get_set_same.
  - now apply IH.
Qed.

End DictFacts.

(** ** Substrings *)

Lemma append_assoc (a b c : string) : (a +++ b) +++ c = a +++ b +++ c.
Proof. induction a; simpl; congruence. Qed.

Lemma names_skip (a msg part : string) : names msg part -> names (a +++ msg) part.
Proof.
  intros (before & after & ->). exists (a +++ before), after.
  now rewrite append_assoc.
Qed.

Lemma names_here (part after : string) : names (part +++ after) part.
Proof. now exists EmptyString, after. Qed.

Lemma append_empty_r (s : string) : s +++ EmptyString = s.
Proof. induction s; simpl; congruence. Qed.

Lemma names_concat (l : list string) (part : string) :
  In part l -> names (String.concat EmptyString l) part.
Proof.
  induction l as [|x l IH]; simpl In; [tauto|].
  intros [->|Hin].
  - destruct l; simpl.
    + exists EmptyString, EmptyString. simpl. now rewrite append_empty_r.
    + apply names_here.
  - destruct l as [|y l]; [destruct Hin|].
    change (names (x +++ EmptyString +++ String.concat EmptyString (y :: l)) part).
    apply names_skip, names_skip. now apply IH.
Qed.

(** ** The adapter *)

Section AdapterFacts.

Context {host : Host}.

Import BetamaxAdapter.

Ltac run :=
  unfold bind, get, put, ret, raise, lift, on_cassette; simpl.

Lemma eject_cassette_unloads (a0 a : t) :
  eject_cassette a0 = (Ok tt, a) -> cassette a = None.
Proof.
  unfold eject_cassette. run.
  destruct (cassette a0) as [c|] eqn:Ec; simpl.
  - rewrite Ec. destruct (eject c) as [[[]|e] c']; simpl; intros H;
      inversion H; subst; reflexivity.
  - intros H; inversion H; subst; reflexivity.
Qed.

(** C2: with no cassette loaded, also once [eject_cassette] has run, [send]
    raises at once: the adapter is left as it was, so no lookup and no call
    of a transport has been made. *)
Theorem C2_send_without_cassette (a : t) (request : Request)
  (args : send_args) :
  cassette a = None \/ (exists a0, eject_cassette a0 = (Ok tt, a)) ->
  send request args a
  = (Raise (BetamaxError "No cassette was specified or found."), a).
Proof.
  intros H.
  assert (Hnone : cassette a = None).
  { destruct H as [H|[a0 H]]; [exact H | exact (eject_cassette_unloads _ H)]. }
  unfold send. run. now rewrite Hnone.
Qed.

(** A miss on a cassette that does not permit recording makes [send] raise
    a [BetamaxError] whose message holds the URL of the request and the
    name, the record mode and the match options of the cassette. *)
Theorem send_raises_on_unrecordable_miss (a : t) (c c' : Cassette.t)
  (request : Request) (args : send_args) :
  cassette a = Some c ->
  lookup_misses request c c' ->
  is_recording c' = false ->
  let msg := unhandled_request_message request c' in
  (exists a',
      send request args a = (Raise (BetamaxError msg), a')
      /\ cassette a' = Some c')
  /\ names msg (url request)
  /\ names msg (Cassette.cassette_name c')
  /\ names msg (py_str (Cassette.record_mode c'))
  /\ names msg (py_str (Cassette.match_options c')).
Proof.
  intros Hc Hmiss Hrec msg. split.
  - unfold send. run. rewrite Hc.
    destruct Hmiss as [[Hnil ->]|[Hne Hfind]].
    + rewrite Hnil. simpl. rewrite Hc. simpl. rewrite Hrec. simpl.
      eexists. split; reflexivity.
    + destruct (Cassette.interactions c) as [|i l]; [congruence|].
      rewrite Hc, Hfind. simpl. rewrite Hrec. simpl.
      eexists. split; reflexivity.
  - unfold msg, unhandled_request_message.
    repeat split; apply names_concat; simpl; tauto.
Qed.

(** C7: when a miss is recorded, [send] answers with the last element of the
    cassette's interaction list as [save_interaction] left it, and the
    response made from it has the adapter itself as its [connection]. *)
Theorem C7_recorded_miss_answers_with_last_interaction (a : t)
  (c c1 c2 : Cassette.t) (request : Request) (args : send_args)
  (adapter : adapter_ref) (response : Response)
  (earlier : list Interaction) (i : Interaction) :
  cassette a = Some c ->
  lookup_misses request c c1 ->
  is_recording c1 = true ->
  find_adapter a (url request) = Some adapter ->
  transport_send adapter request (with_stream args true) = Ok response ->
  save_interaction response request c1 = (Ok tt, c2) ->
  Cassette.interactions c2 = (earlier ++ [i])%list ->
  exists a',
    send request args a
    = (Ok (set_connection (as_response i) (Some (self_ref a))), a')
    /\ cassette a' = Some c2
    /\ connection (set_connection (as_response i) (Some (self_ref a)))
       = Some (self_ref a).
Proof.
  intros Hc Hmiss Hrec Hfind Hsend Hsave Hlast.
  assert (Hli : last_interaction c2 = Some i).
  { unfold last_interaction. rewrite Hlast, rev_app_distr. reflexivity. }
  unfold send, send_and_record. run. rewrite Hc.
  destruct Hmiss as [[Hnil ->]|[Hne Hmatch]].
  - rewrite Hnil. simpl. rewrite Hc. simpl. rewrite Hrec. simpl.
    unfold find_adapter in *. simpl. rewrite Hfind, Hsend. simpl.
    rewrite Hsave. simpl. rewrite Hli. simpl.
    eexists. repeat split; reflexivity.
  - destruct (Cassette.interactions c) as [|i0 l]; [congruence|].
    rewrite Hc, Hmatch. simpl. rewrite Hrec. simpl.
    unfold find_adapter in *. simpl. rewrite Hfind, Hsend. simpl.
    rewrite Hsave. simpl. rewrite Hli. simpl.
    eexists. repeat split; reflexivity.
Qed.

End AdapterFacts.

(** ** The transport of a recording call *)

Section TransportFacts.

Context {host : Host}.

Import BetamaxAdapter.

Lemma find_adapter_in_first (items : odict adapter_ref) (u : string) :
  match find_adapter_in items u with
  | Some adapter => exists prefix, first_matching_entry items u prefix adapter
  | None => forall p h, In (p, h) items -> startswith (lower u) p = false
  end.
Proof.
  induction items as [|[p h] items IH]; simpl.
  - tauto.
  - destruct (startswith (lower u) p) eqn:Ep.
    + exists p, [], items. simpl. repeat split; auto. tauto.
    + destruct (find_adapter_in items u) as [adapter|].
      * destruct IH as (prefix & before & after & -> & Hs & Hbefore).
        exists prefix, ((p, h) :: before), after. repeat split; auto.
        intros p' h' [Heq|Hin]; [inversion Heq; subst; auto | eauto].
      * intros p' h' [Heq|Hin]; [inversion Heq; subst; auto | eauto].
Qed.

Lemma longest_first_after (before after : odict adapter_ref)
  (prefix : string) (adapter : adapter_ref) :
  longest_first (before ++ (prefix, adapter) :: after) = true ->
  forall p h, In (p, h) after -> String.length p <= String.length prefix.
Proof.
  induction before as [|[p0 h0] before IH]; simpl; intros H p h Hin.
  - apply andb_prop in H. destruct H as [H _].
    rewrite forallb_forall in H. specialize (H _ Hin). simpl in H.
    now apply Nat.leb_le.
  - apply andb_prop in H. destruct H as [_ H]. eauto.
Qed.

Lemma first_match_is_longest (old : odict adapter_ref) (u prefix : string)
  (adapter : adapter_ref) :
  longest_first old = true ->
  first_matching_entry old u prefix adapter ->
  selects_longest_prefix old u adapter.
Proof.
  intros Hsorted (before & after & -> & Hs & Hbefore).
  exists prefix. repeat split; auto.
  - apply in_or_app. right. now left.
  - intros p h Hin Hp. apply in_app_or in Hin.
    destruct Hin as [Hin|[Heq|Hin]].
    + rewrite (Hbefore _ _ Hin) in Hp. discriminate.
    + inversion Heq; subst. apply Nat.le_refl.
    + eapply longest_first_after; eauto.
Qed.

Lemma send_and_record_calls (a : t) (request : Request) (args : send_args)
  (adapter : adapter_ref) :
  find_adapter a (url request) = Some adapter ->
  exists rest,
    calls (snd (send_and_record request args a))
    = (calls a
       ++ EvTransportSend adapter request (with_stream args true) :: rest)%list
    /\ existsb is_transport_send rest = false.
Proof.
  intros Hfind. unfold send_and_record, bind, get, put, ret, raise, on_cassette.
  simpl. rewrite Hfind.
  destruct (transport_send adapter request (with_stream args true))
    as [response|e]; simpl.
  - destruct (cassette a) as [c|]; simpl.
    + destruct (save_interaction response request c) as [[[]|e] c2]; simpl.
      * exists [EvSaveInteraction response request]. split; [|reflexivity].
        destruct (last_interaction c2); simpl; now rewrite <- app_assoc.
      * exists [EvSaveInteraction response request]. split; [|reflexivity].
        now rewrite <- app_assoc.
    + exists []. split; reflexivity.
  - exists []. split; reflexivity.
Qed.

(** C3, amended: when some registered prefix matches, the transport called
    for the recording is the first entry of the preserved handlers, in the
    order of the mapping, whose prefix the lowercased URL starts with; no
    other transport is called; and when the entries come by non-increasing
    prefix length, that entry has the longest matching prefix. *)
Theorem C3_recording_transport_is_first_match (a : t) (request : Request)
  (args : send_args) :
  (exists p h, In (p, h) (old_adapters a)
               /\ startswith (lower (url request)) p = true) ->
  exists prefix adapter rest,
    first_matching_entry (old_adapters a) (url request) prefix adapter
    /\ calls (snd (send_and_record request args a))
       = (calls a
          ++ EvTransportSend adapter request (with_stream args true)
             :: rest)%list
    /\ existsb is_transport_send rest = false
    /\ (longest_first (old_adapters a) = true ->
        selects_longest_prefix (old_adapters a) (url request) adapter).
Proof.
  intros (p & h & Hin & Hp).
  pose proof (find_adapter_in_first (old_adapters a) (url request)) as Hfirst.
  destruct (find_adapter_in (old_adapters a) (url request)) as [adapter|] eqn:E.
  - destruct Hfirst as (prefix & Hfirst).
    destruct (send_and_record_calls a request args E) as (rest & Hcalls & Hrest).
    exists prefix, adapter, rest. repeat split; auto.
    intros Hsorted. eapply first_match_is_longest; eauto.
  - rewrite (Hfirst _ _ Hin) in Hp. discriminate.
Qed.

End TransportFacts.

(** ** The adapter on concrete inputs *)

Lemma C2_send_without_cassette_witness :
  let a := snd (BetamaxAdapter.eject_cassette (host := host0)
                  (sample_adapter default_adapters "none")) in
  BetamaxAdapter.send (host := host0) sample_request sample_args a
  = (Raise (BetamaxError "No cassette was specified or found."), a).
Proof.
  intros a.
  apply (@C2_send_without_cassette host0 a sample_request sample_args).
  right. exists (sample_adapter default_adapters "none"). reflexivity.
Defined.

Example unhandled_request_message_sample :
  BetamaxAdapter.unhandled_request_message sample_request
    (sample_cassette "none")
  = String.concat BetamaxAdapter.nl
      [ "A request was made that could not be handled.";
        "";
        "A request was made to HTTP://Example.com/get that could not be found in example.";
        "";
        "The settings on the cassette are:";
        "";
        "    - record_mode: none";
        "    - match_options ['method', 'uri'].";
        "" ]%string.
Proof. reflexivity. Qed.

Lemma send_raises_on_unrecordable_miss_witness :
  let a := sample_adapter default_adapters "none" in
  let c := sample_cassette "none" in
  let msg := BetamaxAdapter.unhandled_request_message sample_request c in
  (exists a',
      BetamaxAdapter.send (host := host0) sample_request sample_args a
      = (Raise (BetamaxError msg), a')
      /\ BetamaxAdapter.cassette a' = Some c)
  /\ names msg (url sample_request)
  /\ names msg (Cassette.cassette_name c)
  /\ names msg (py_str (Cassette.record_mode c))
  /\ names msg (py_str (Cassette.match_options c)).
Proof.
  intros a c.
  apply (@send_raises_on_unrecordable_miss host0 a c c sample_request sample_args).
  - reflexivity.
  - left. split; reflexivity.
  - reflexivity.
Defined.

Lemma startswith_append (part rest : string) :
  startswith (part +++ rest) part = true.
Proof.
  induction part as [|ch part IH]; simpl.
  - now destruct rest.
  - now rewrite Ascii.eqb_refl.
Qed.

Lemma occurs_unfold (part msg : string) :
  occurs part msg
  = startswith msg part
    || match msg with
       | EmptyString => false
       | String _ msg' => occurs part msg'
       end.
Proof. destruct msg; reflexivity. Qed.

Lemma names_occurs (msg part : string) :
  names msg part -> occurs part msg = true.
Proof.
  intros (before & rest & ->).
  induction before as [|ch before IH].
  - change (EmptyString +++ part +++ rest) with (part +++ rest).
    rewrite occurs_unfold, startswith_append. reflexivity.
  - change (String ch before +++ part +++ rest)
      with (String ch (before +++ part +++ rest)).
    rewrite occurs_unfold, IH. apply orb_true_r.
Qed.

(** C1: on a miss that cannot be recorded [send] raises a [BetamaxError]
    whose message holds the URL of the request and the record mode and the
    match options of the cassette, but not the file path of the cassette:
    the field [cassette_file_path] of the template is filled with the name
    of the cassette.  The cassette [example] of the library [vcr/cassettes]
    holds one interaction, is in mode [none] and is asked for another URL;
    [find_match] and [is_recording] are called, the message holds
    [example] and does not hold [vcr/cassettes/example.json]. *)
Theorem C1_message_holds_the_name_not_the_path :
  let c := recorded_cassette "none" in
  let a := BetamaxAdapter.set_cassette
             (BetamaxAdapter.init (Interceptor 0) default_adapters) (Some c) in
  let sent := BetamaxAdapter.send (host := host1) other_request sample_args a in
  let msg := BetamaxAdapter.unhandled_request_message other_request c in
  fst sent = Raise (BetamaxError msg)
  /\ BetamaxAdapter.calls (snd sent)
     = [EvFindMatch other_request; EvIsRecording]
  /\ msg = String.concat BetamaxAdapter.nl
             [ "A request was made that could not be handled.";
               "";
               "A request was made to http://example.com/other that could not be found in example.";
               "";
               "The settings on the cassette are:";
               "";
               "    - record_mode: none";
               "    - match_options ['method', 'uri'].";
               "" ]%string
  /\ names msg (url other_request)
  /\ names msg (py_str (Cassette.record_mode c))
  /\ names msg (py_str (Cassette.match_options c))
  /\ names msg (Cassette.cassette_name c)
  /\ storage_path c = "vcr/cassettes/example.json"%string
  /\ ~ names msg (storage_path c).
Proof.
  intros c a sent msg.
  split; [reflexivity|]. split; [reflexivity|]. split; [reflexivity|].
  split; [apply names_concat; simpl; tauto|].
  split; [apply names_concat; simpl; tauto|].
  split; [apply names_concat; simpl; tauto|].
  split; [apply names_concat; simpl; tauto|].
  split; [reflexivity|].
  intros H. apply names_occurs in H. vm_compute in H. discriminate.
Qed.

Lemma C7_recorded_miss_witness :
  let a := sample_adapter default_adapters "new_episodes" in
  let i := {| recorded_request := sample_request;
              recorded_response := sample_live;
              recorded_at := 1000%Z |} in
  exists a',
    BetamaxAdapter.send (host := host0) sample_request sample_args a
    = (Ok (set_connection sample_live (Some (Interceptor 0))), a')
    /\ BetamaxAdapter.cassette a'
       = Some (Cassette.set_interactions (sample_cassette "new_episodes") [i])
    /\ connection (set_connection sample_live (Some (Interceptor 0)))
       = Some (Interceptor 0).
Proof.
  intros a i.
  apply (@C7_recorded_miss_answers_with_last_interaction host0 a
           (sample_cassette "new_episodes") (sample_cassette "new_episodes")
           (Cassette.set_interactions (sample_cassette "new_episodes") [i])
           sample_request sample_args (HostAdapter 1) sample_live [] i).
  - reflexivity.
  - left. split; reflexivity.
  - reflexivity.
  - reflexivity.
  - reflexivity.
  - reflexivity.
  - reflexivity.
Defined.

Lemma C3_recording_transport_witness :
  let a := sample_adapter default_adapters "new_episodes" in
  (exists p h, In (p, h) (BetamaxAdapter.old_adapters a)
               /\ startswith (lower (url sample_request)) p = true)
  /\ longest_first (BetamaxAdapter.old_adapters a) = true
  /\ exists prefix adapter rest,
      first_matching_entry (BetamaxAdapter.old_adapters a)
        (url sample_request) prefix adapter
      /\ BetamaxAdapter.calls
           (snd (BetamaxAdapter.send_and_record (host := host0)
                   sample_request sample_args a))
         = (BetamaxAdapter.calls a
            ++ EvTransportSend adapter sample_request
                 (with_stream sample_args true) :: rest)%list
      /\ existsb is_transport_send rest = false
      /\ (longest_first (BetamaxAdapter.old_adapters a) = true ->
          selects_longest_prefix (BetamaxAdapter.old_adapters a)
            (url sample_request) adapter).
Proof.
  intros a.
  assert (Hmatch : exists p h, In (p, h) (BetamaxAdapter.old_adapters a)
                               /\ startswith (lower (url sample_request)) p = true).
  { exists "http://"%string, (HostAdapter 1). split; [right; left|]; reflexivity. }
  split; [exact Hmatch|]. split; [reflexivity|].
  exact (@C3_recording_transport_is_first_match host0 a
           sample_request sample_args Hmatch).
Defined.

(** C3 as a rule of the longest prefix fails: with a shorter matching prefix
    registered before a longer one, a recorded miss calls the transport of
    the shorter prefix. *)
Lemma C3_counterexample :
  let a := sample_adapter shadowing_adapters "new_episodes" in
  BetamaxAdapter.calls
    (snd (BetamaxAdapter.send (host := host0) sample_request sample_args a))
  = [ EvIsRecording;
      EvTransportSend (HostAdapter 0) sample_request
        (with_stream sample_args true);
      EvSaveInteraction sample_live sample_request ]
  /\ ~ selects_longest_prefix (BetamaxAdapter.old_adapters a)
         (url sample_request) (HostAdapter 0).
Proof.
  split; [reflexivity|].
  intros (prefix & Hin & _ & Hmax).
  destruct Hin as [Heq|[Heq|[]]]; inversion Heq; subst.
  specialize (Hmax "http://example.com/"%string (HostAdapter 1)).
  simpl in Hmax.
  assert (H : 19 <= 7) by (apply Hmax; [right; left; reflexivity | reflexivity]).
  lia.
Qed.

(** ** Re-recording a stale cassette *)

Section LoadFacts.

Context {host : Host}.

Import BetamaxAdapter.

Lemma elapsed_below_timedelta_max (now earliest : datetime) :
  valid_datetime now -> valid_datetime earliest ->
  (timedelta_max <? now - earliest)%Z = false.
Proof.
  unfold valid_datetime, timedelta_max, us_per_day. intros Hn He.
  apply Z.ltb_ge. lia.
Qed.

(** [load_cassette] calls [clear] on the new cassette exactly when a truthy
    [re_record_interval] is among the options the adapter has accumulated,
    those of this load included, and the time from [earliest_recorded_date]
    to now strictly exceeds that many days; with none among them it does
    not. *)
Theorem load_cassette_clears_on_merged_interval (g : globals) (now : datetime)
  (name : string) (ser : pyval) (opts : Options.t) (a : t)
  (default_match : pyval) (c : Cassette.t) :
  let options' := dict_update (options a) (Options.items opts) in
  let interval := dict_get_or "re_record_interval" PyNone options' in
  let c' := apply_options options'
              (dict_get_or "match_requests_on" default_match options') c in
  let elapsed := (now - earliest_recorded_date c')%Z in
  let a' := snd (load_cassette g now name ser opts a) in
  valid_datetime now ->
  valid_datetime (earliest_recorded_date c') ->
  interval = PyNone \/ py_gt_zero interval = Ok true ->
  py_getitem (default_cassette_options g) "match_requests_on"
  = Ok default_match ->
  Cassette_init name ser
    (dict_get_or "placeholders" (PyList []) options')
    (dict_get_or "record" PyNone options')
    (dict_get_or "preserve_exact_body_bytes" PyNone options')
    (dict_get_or "cassette_library_dir" PyNone options') = Ok c ->
  (interval_exceeded interval elapsed ->
   calls a' = (calls a ++ [EvCassetteInit name; EvClear])%list
   /\ cassette a' = Some (snd (clear c')))
  /\ (~ interval_exceeded interval elapsed ->
      calls a' = (calls a ++ [EvCassetteInit name])%list
      /\ cassette a' = Some c')
  /\ (interval = PyNone -> ~ interval_exceeded interval elapsed).
Proof.
  intros options' interval c' elapsed a' Hnow Hearliest Hvalid Hdm Hinit.
  assert (Hrun : a' =
    snd (bind (if py_truthy interval
               then lift (timedelta_days interval)
               else ret timedelta_max)
           (fun rri => if (rri <? elapsed)%Z
                       then on_cassette EvClear clear else ret tt)
           (set_cassette
              (log (EvCassetteInit name)
                 (set_load_arguments a name ser options')) (Some c')))).
  { unfold a', load_cassette.
    unfold bind at 1. unfold get at 1. cbv beta iota.
    fold options'.
    unfold bind at 1. unfold put at 1. cbv beta iota.
    unfold bind at 1. unfold lift at 1. rewrite Hdm. cbv beta iota.
    unfold bind at 1. rewrite Hinit. cbv beta iota.
    unfold bind at 1. unfold get at 1. cbv beta iota.
    unfold bind at 1. unfold put at 1. cbv beta iota.
    reflexivity. }
  assert (Hnone : interval = PyNone -> ~ interval_exceeded interval elapsed).
  { intros -> [Ht _]. discriminate. }
  rewrite Hrun. clear Hrun.
  destruct Hvalid as [Hi|Hi].
  - rewrite Hi in *. simpl py_truthy. cbv iota.
    assert (Hmax : (timedelta_max <? elapsed)%Z = false)
      by (unfold elapsed; now apply elapsed_below_timedelta_max).
    unfold bind, ret. rewrite Hmax. simpl.
    split; [intros Hyes; exfalso; now apply Hnone|].
    split; [|exact Hnone].
    intros _. split; reflexivity.
  - assert (Hd : exists d,
               interval_in_days interval = Some d /\ (0 < d)%Z
               /\ py_truthy interval = true
               /\ timedelta_days interval
                  = if (Z.abs d <=? 999999999)%Z then Ok (d * us_per_day)%Z
                    else Raise OverflowError).
    { clear Hnone. clearbody interval.
      destruct interval as [| b | z | | |]; simpl in Hi; try discriminate.
      - injection Hi as ->. exists 1%Z. repeat split; reflexivity.
      - injection Hi as Hz. apply Z.ltb_lt in Hz. exists z.
        split; [reflexivity|]. split; [exact Hz|]. split; [|reflexivity].
        simpl. destruct (Z.eqb_spec z 0); [lia | reflexivity]. }
    destruct Hd as (d & Hdays & Hpos & Htruthy & Htd).
    assert (Hex : interval_exceeded interval elapsed
                  <-> (d * us_per_day < elapsed)%Z).
    { unfold interval_exceeded. rewrite Hdays. split.
      - intros (_ & days & Heq & Hlt). inversion Heq; subst. exact Hlt.
      - intros Hlt. split; [exact Htruthy|]. now exists d. }
    rewrite Htruthy, Htd. unfold bind, lift, ret, on_cassette.
    destruct (Z.leb_spec (Z.abs d) 999999999) as [Hle|Hgt].
    + destruct (Z.ltb_spec (d * us_per_day) elapsed) as [Hlt|Hge].
      * simpl. destruct (clear c') as [r c'']. simpl.
        rewrite <- app_assoc. simpl.
        split; [intros _; split; reflexivity|].
        split; [|exact Hnone].
        intros Hnot. exfalso. apply Hnot. now apply Hex.
      * simpl.
        split; [intros Hyes; apply Hex in Hyes; lia|].
        split; [|exact Hnone].
        intros _. split; reflexivity.
    + simpl.
      assert (Hnot : ~ interval_exceeded interval elapsed).
      { rewrite Hex. unfold elapsed. unfold valid_datetime in *.
        unfold us_per_day in *. lia. }
      split; [intros Hyes; exfalso; now apply Hnot|].
      split; [|exact Hnone].
      intros _. split; reflexivity.
Qed.

End LoadFacts.

Example load_cassette_clears_stale_cassette :
  let a := BetamaxAdapter.init (Interceptor 0) default_adapters in
  let a' := snd (BetamaxAdapter.load_cassette (host := host1) initial_globals
                   sample_now "example" (PyStr "json") one_day_options a) in
  BetamaxAdapter.calls a' = [EvCassetteInit "example"; EvClear]
  /\ option_map Cassette.interactions (BetamaxAdapter.cassette a') = Some [].
Proof. split; reflexivity. Qed.

Lemma load_cassette_clears_on_merged_interval_witness :
  let a := BetamaxAdapter.init (Interceptor 0) default_adapters in
  let a' := snd (BetamaxAdapter.load_cassette (host := host1) initial_globals
                   sample_now "example" (PyStr "json") one_day_options a) in
  let c' := Cassette.set_match_options loaded_cassette
              (PyList [PyStr "method"; PyStr "uri"]) in
  let elapsed := (1000 * us_per_day)%Z in
  (interval_exceeded (PyInt 1) elapsed ->
   BetamaxAdapter.calls a' = [EvCassetteInit "example"; EvClear]
   /\ BetamaxAdapter.cassette a' = Some (Cassette.set_interactions c' []))
  /\ (~ interval_exceeded (PyInt 1) elapsed ->
      BetamaxAdapter.calls a' = [EvCassetteInit "example"]
      /\ BetamaxAdapter.cassette a' = Some c')
  /\ (PyInt 1 = PyNone -> ~ interval_exceeded (PyInt 1) elapsed).
Proof.
  intros a a' c' elapsed.
  apply (@load_cassette_clears_on_merged_interval host1 initial_globals sample_now
           "example" (PyStr "json") one_day_options a
           (PyList [PyStr "method"; PyStr "uri"]) loaded_cassette).
  - unfold valid_datetime, sample_now, us_per_day. lia.
  - unfold valid_datetime. vm_compute. split; [discriminate | reflexivity].
  - right. reflexivity.
  - reflexivity.
  - reflexivity.
Defined.

(** C4: an interval configured in the process-wide defaults, as the
    docstring of [Betamax] shows it, is not read by [load_cassette], which
    looks at the options given to [use_cassette] and at those the adapter
    kept from earlier loads.  A controller built with
    [default_cassette_options={'re_record_interval': 1}] has the interval in
    the table and in the [Options] of every later [use_cassette], yet
    [use_cassette] leaves the interaction of a cassette recorded a thousand
    days ago.  And on one controller, after [use_cassette] with an interval
    of one day, a second [use_cassette] with no interval clears its
    cassette too. *)
Theorem C4_interval_of_the_defaults_is_ignored :
  let s := {| adapters := default_adapters |} in
  let bm := {| Betamax.session := s;
               Betamax.http_adapters := default_adapters;
               Betamax.betamax_adapter :=
                 BetamaxAdapter.init (Interceptor 0) default_adapters;
               Betamax.config := Configuration.init |} in
  let built := Betamax.init 0 s PyNone
                 [("re_record_interval"%string, PyInt 1)] initial_globals in
  let g1 := snd built in
  let used := Betamax.use_cassette (host := host1) sample_can_be_loaded g1
                sample_now "example" [] bm in
  let first := Betamax.use_cassette (host := host1) sample_can_be_loaded
                 initial_globals sample_now "first"
                 [("re_record_interval"%string, PyInt 1)] bm in
  let second := Betamax.use_cassette (host := host1) sample_can_be_loaded
                  initial_globals sample_now "second" [] (snd first) in
  (fst built = Ok bm
   /\ py_getitem (default_cassette_options g1) "re_record_interval"
      = Ok (PyInt 1)
   /\ Options.getitem (options_of g1 []) "re_record_interval" = PyInt 1
   /\ (sample_now - recorded_at old_interaction = 1000 * us_per_day)%Z
   /\ fst used = Ok tt
   /\ BetamaxAdapter.calls (Betamax.betamax_adapter (snd used))
      = [EvCassetteInit "example"]
   /\ option_map Cassette.interactions (Betamax.current_cassette (snd used))
      = Some [old_interaction])
  /\ (py_getitem (default_cassette_options initial_globals)
        "re_record_interval" = Ok PyNone
      /\ fst first = Ok tt
      /\ fst second = Ok tt
      /\ BetamaxAdapter.calls (Betamax.betamax_adapter (snd second))
         = [EvCassetteInit "first"; EvClear; EvCassetteInit "second"; EvClear]
      /\ option_map Cassette.cassette_name
           (Betamax.current_cassette (snd second)) = Some "second"%string
      /\ option_map Cassette.interactions
           (Betamax.current_cassette (snd second)) = Some []).
Proof.
  intros s bm built g1 used first second.
  split.
  - split; [reflexivity|]. split; [reflexivity|]. split; [reflexivity|].
    split; [reflexivity|]. split; [reflexivity|]. split; reflexivity.
  - split; [reflexivity|]. split; [reflexivity|]. split; [reflexivity|].
    split; [reflexivity|]. split; reflexivity.
Qed.

(** ** Options *)

Lemma dict_update_get {V : Type} (k : string) (items : list (string * V)) :
  forall d,
    dict_get k (dict_update d items)
    = match last_value k items with
      | Some v => Some v
      | None => dict_get k d
      end.
Proof.
  unfold dict_update.
  induction items as [|[k0 v0] items IH]; simpl; intros d; auto.
  rewrite IH. destruct (last_value k items); auto.
  destruct (String.eqb_spec k k0) as [->|Hne].
  - apply dict_get_set_same.
  - now apply dict_get_set_other.
Qed.

Lemma last_value_In {V : Type} (k : string) (v : V)
  (items : list (string * V)) :
  last_value k items = Some v -> In (k, v) items.
Proof.
  induction items as [|[k0 v0] items IH]; simpl; [discriminate|].
  destruct (last_value k items) as [v'|].
  - intros H. right. apply IH. exact H.
  - destruct (String.eqb_spec k k0) as [->|Hne]; [|discriminate].
    intros H. left. congruence.
Qed.

Lemma py_eq_str (v : pyval) (s : string) :
  py_eq v (PyStr s) = true -> v = PyStr s.
Proof.
  destruct v; simpl; try discriminate.
  intros H. apply String.eqb_eq in H. congruence.
Qed.

Lemma py_in_strs_false (v : pyval) (l : list string) :
  ~ In v (map PyStr l) -> py_in v (map PyStr l) = false.
Proof.
  unfold py_in. induction l as [|s l IH]; simpl; auto.
  intros Hnot. destruct (py_eq v (PyStr s)) eqn:E; simpl.
  - apply py_eq_str in E. exfalso. apply Hnot. left. congruence.
  - apply IH. tauto.
Qed.

Lemma translated_record (g : globals) (table : dict)
  (items : list (string * pyval)) (v : pyval) :
  default_cassette_options g = PyDict table ->
  Options.translate_cassette_options g = Ok items ->
  In ("record"%string, v) items ->
  In ("record_mode"%string, v) table \/ In ("record"%string, v) table.
Proof.
  unfold Options.translate_cassette_options. intros -> Hitems Hin.
  injection Hitems as <-. apply in_map_iff in Hin.
  destruct Hin as ([k x] & Heq & Hin).
  unfold Options.rename_record_mode in Heq. cbn [fst snd] in Heq.
  destruct (String.eqb_spec k "record_mode") as [->|Hne]; simpl in Heq.
  - left. congruence.
  - right. congruence.
Qed.

(** C5: [validate] can raise on an invalid value: on the mapping
    [{'match_requests_on': None}] it raises a [TypeError] and removes
    nothing, and so does the constructor of [Options]. *)
Theorem C5_validate_raises_on_uniterable_matchers (g : globals) :
  Options.validate g [("match_requests_on"%string, PyNone)]
  = (Raise TypeError, [("match_requests_on"%string, PyNone)])
  /\ Options.init g [("match_requests_on"%string, PyNone)] = Raise TypeError.
Proof. split; reflexivity. Qed.

(** C6: with the default record mode left at [once], [Options] built from
    [{'record': v}] for a [v] that is none of the four modes is built without
    an exception, does not contain [record], and answers a lookup of [record]
    with [once]. *)
Theorem C6_bogus_record_falls_back_to_once (g : globals) (table : dict)
  (v : pyval) :
  default_cassette_options g = PyDict table ->
  wf_dict table ->
  default_mode_is_once table ->
  ~ In v [PyStr "all"; PyStr "new_episodes"; PyStr "none"; PyStr "once"] ->
  exists opts,
    Options.init g [("record"%string, v)] = Ok opts
    /\ Options.contains opts "record" = false
    /\ Options.getitem opts "record" = PyStr "once".
Proof.
  intros Hg Hwf [Hrecord Hmode] Hv.
  assert (Hinvalid : Options.validate_record v = Ok false).
  { unfold Options.validate_record. f_equal.
    apply (py_in_strs_false v ["all"; "new_episodes"; "none"; "once"]%string).
    exact Hv. }
  assert (Hvalidate : Options.validate g [("record"%string, v)] = (Ok tt, [])).
  { unfold Options.validate. simpl. unfold bind, lift. rewrite Hinvalid.
    reflexivity. }
  unfold Options.init. rewrite Hvalidate.
  destruct (Options.translate_cassette_options g) as [items|e] eqn:Hitems.
  2:{ unfold Options.translate_cassette_options in Hitems.
      rewrite Hg in Hitems. discriminate. }
  eexists. split; [reflexivity|]. split; [reflexivity|].
  unfold Options.getitem, dict_get_or. simpl.
  rewrite dict_update_get.
  destruct (last_value "record" items) as [x|] eqn:Hlast; [|reflexivity].
  apply last_value_In in Hlast.
  destruct (@translated_record g table items x Hg Hitems Hlast) as [Hin|Hin];
    apply (In_dict_get (V := pyval)) in Hin; try assumption.
  - destruct Hmode as [Hmode|Hmode]; congruence.
  - congruence.
Qed.

Lemma C6_bogus_record_witness :
  exists opts,
    Options.init initial_globals [("record"%string, PyStr "bogus")] = Ok opts
    /\ Options.contains opts "record" = false
    /\ Options.getitem opts "record" = PyStr "once".
Proof.
  apply (@C6_bogus_record_falls_back_to_once initial_globals
           initial_default_cassette_options (PyStr "bogus")).
  - reflexivity.
  - unfold wf_dict. simpl.
    repeat (constructor; [simpl; intuition discriminate|]). constructor.
  - split; [reflexivity | right; reflexivity].
  - simpl. intuition discriminate.
Defined.

Lemma dict_del_middle {V : Type} (k : string) (v : V) (kept rest : odict V) :
  ~ In k (dict_keys kept) ->
  dict_del k (kept ++ (k, v) :: rest) = Ok (kept ++ rest)%list.
Proof.
  intros Hnot. unfold dict_del, dict_contains.
  induction kept as [|[k0 v0] kept IH]; simpl.
  - now rewrite String.eqb_refl.
  - simpl in Hnot. destruct (String.eqb_spec k k0) as [->|Hne]; [tauto|].
    assert (Hk : ~ In k (dict_keys kept)) by tauto. specialize (IH Hk).
    destruct (dict_get k (kept ++ (k, v) :: rest)); [|discriminate].
    injection IH as ->. reflexivity.
Qed.

Lemma validate_items_filter (g : globals) (items : list (string * pyval)) :
  forall kept : dict,
    wf_dict (kept ++ items) ->
    (forall kv, In kv items -> exists b, entry_valid g kv = Ok b) ->
    Options.validate_items g items (kept ++ items)
    = (Ok tt, (kept ++ filter (survives g) items)%list).
Proof.
  unfold wf_dict, dict_keys.
  induction items as [|[k v] items IH]; intros kept Hnd Hok.
  - reflexivity.
  - assert (Hk : ~ In k (dict_keys kept)).
    { rewrite map_app in Hnd. simpl in Hnd. apply NoDup_remove_2 in Hnd.
      intros Hin. apply Hnd. apply in_or_app. now left. }
    assert (Hnd' : NoDup (map fst (kept ++ items))).
    { rewrite map_app in *. simpl in Hnd. now apply NoDup_remove_1 in Hnd. }
    assert (Hdel : Options.delitem k (kept ++ (k, v) :: items)
                   = (Ok tt, (kept ++ items)%list)).
    { unfold Options.delitem. now rewrite dict_del_middle. }
    assert (Hrest : forall kv, In kv items -> exists b, entry_valid g kv = Ok b).
    { intros kv Hin. apply Hok. now right. }
    destruct (Hok (k, v) (or_introl eq_refl)) as [b Hb].
    unfold survives. simpl filter. rewrite Hb.
    unfold entry_valid in Hb. simpl in Hb. simpl Options.validate_items.
    destruct (Options.valid_options g k) as [is_valid|].
    + unfold bind at 1. unfold lift at 1. rewrite Hb.
      destruct b; cbn [negb].
      * replace (kept ++ (k, v) :: items)%list
          with ((kept ++ [(k, v)]) ++ items)%list by now rewrite <- app_assoc.
        rewrite IH; auto.
        -- now rewrite <- app_assoc.
        -- now rewrite <- app_assoc.
      * unfold bind. rewrite Hdel. now apply IH.
    + injection Hb as <-. unfold bind. rewrite Hdel. now apply IH.
Qed.

(** What does hold of [validate]: on a mapping whose values no predicate of
    the registry raises on, it returns and leaves exactly the entries with a
    recognized key and a value that its predicate accepts. *)
Lemma validate_keeps_valid_entries (g : globals) (raw : dict) :
  wf_dict raw ->
  (forall kv, In kv raw -> exists b, entry_valid g kv = Ok b) ->
  Options.validate g raw = (Ok tt, filter (survives g) raw).
Proof.
  intros Hwf Hok. unfold Options.validate.
  exact (validate_items_filter g raw [] Hwf Hok).
Qed.

Lemma rejected_entry_is_absent (g : globals) (raw : dict) (k : string)
  (v : pyval) :
  wf_dict raw -> In (k, v) raw -> survives g (k, v) = false ->
  dict_get k (filter (survives g) raw) = None.
Proof.
  intros Hwf Hin Hrej.
  destruct (dict_get k (filter (survives g) raw)) as [x|] eqn:E; auto.
  apply dict_get_In in E. apply filter_In in E. destruct E as [Hx Hsurv].
  apply (In_dict_get (V := pyval)) in Hx; auto.
  apply (In_dict_get (V := pyval)) in Hin; auto.
  congruence.
Qed.

(** A lookup returns the explicit value when there is one. *)
Lemma getitem_explicit (opts : Options.t) (k : string) (v : pyval) :
  dict_get k (Options.data opts) = Some v -> Options.getitem opts k = v.
Proof. unfold Options.getitem, dict_get_or. now intros ->. Qed.

(** The fallback of an invalid [record] among other entries, none of which
    makes its predicate raise. *)
Lemma bogus_record_among_other_entries (g : globals) (table raw : dict)
  (v : pyval) :
  default_cassette_options g = PyDict table ->
  wf_dict table ->
  default_mode_is_once table ->
  wf_dict raw ->
  In ("record"%string, v) raw ->
  (forall kv, In kv raw -> exists b, entry_valid g kv = Ok b) ->
  ~ In v [PyStr "all"; PyStr "new_episodes"; PyStr "none"; PyStr "once"] ->
  exists opts,
    Options.init g raw = Ok opts
    /\ Options.data opts = filter (survives g) raw
    /\ Options.contains opts "record" = false
    /\ Options.getitem opts "record" = PyStr "once".
Proof.
  intros Hg Hwf [Hrecord Hmode] Hraw Hin Hok Hv.
  assert (Hrej : survives g ("record"%string, v) = false).
  { unfold survives, entry_valid. cbn [fst snd].
    change (Options.valid_options g "record") with (Some Options.validate_record).
    unfold Options.validate_record.
    change [PyStr "all"; PyStr "new_episodes"; PyStr "none"; PyStr "once"]
      with (map PyStr ["all"; "new_episodes"; "none"; "once"]%string).
    now rewrite py_in_strs_false. }
  pose proof (@rejected_entry_is_absent g raw _ _ Hraw Hin Hrej) as Habsent.
  unfold Options.init. rewrite validate_keeps_valid_entries by assumption.
  destruct (Options.translate_cassette_options g) as [items|e] eqn:Hitems.
  2:{ unfold Options.translate_cassette_options in Hitems.
      rewrite Hg in Hitems. discriminate. }
  eexists. split; [reflexivity|]. split; [reflexivity|].
  unfold Options.contains, dict_contains, Options.getitem, dict_get_or.
  simpl. rewrite Habsent. split; [reflexivity|].
  rewrite dict_update_get.
  destruct (last_value "record" items) as [x|] eqn:Hlast; [|reflexivity].
  apply last_value_In in Hlast.
  destruct (@translated_record g table items x Hg Hitems Hlast) as [Hx|Hx];
    apply (In_dict_get (V := pyval)) in Hx; try assumption.
  - destruct Hmode as [Hmode|Hmode]; congruence.
  - congruence.
Qed.

(** ** The session controller *)

Lemma requests_mount_get (prefix : string) (adapter : adapter_ref)
  (ads : odict adapter_ref) (k : string) :
  dict_get k (requests_mount prefix adapter ads)
  = dict_get k (dict_set prefix adapter ads).
Proof.
  unfold requests_mount.
  generalize (filter (fun k0 => (String.length k0 <? String.length prefix)%nat)
                (dict_keys (dict_set prefix adapter ads))).
  generalize (dict_set prefix adapter ads).
  intros d keys. revert d.
  induction keys as [|key keys IH]; simpl; intros d; auto.
  rewrite IH. destruct (dict_get key d) as [v|] eqn:E; auto.
  destruct (String.eqb_spec k key) as [->|Hne].
  - now rewrite dict_get_set_same.
  - rewrite dict_get_set_other by assumption.
    now apply dict_get_remove_other.
Qed.

(** The [mount] of the requests library is a [mount] the engine can use. *)
Lemma requests_client_lawful : lawful_mount requests_client.
Proof.
  split.
  - intros prefix adapter ads. simpl.
    rewrite requests_mount_get. apply dict_get_set_same.
  - intros prefix adapter ads k Hne. simpl.
    rewrite requests_mount_get. now apply dict_get_set_other.
Qed.

Section RecorderFacts.

Context {host : Host} {client : HostClient}.

Hypothesis mount_is_lawful : lawful_mount client.

Lemma mount_same (prefix : string) (adapter : adapter_ref)
  (ads : odict adapter_ref) :
  dict_get prefix (mount_adapters prefix adapter ads) = Some adapter.
Proof. apply mount_is_lawful. Qed.

Lemma mount_other (prefix : string) (adapter : adapter_ref)
  (ads : odict adapter_ref) (k : string) :
  k <> prefix ->
  dict_get k (mount_adapters prefix adapter ads) = dict_get k ads.
Proof. apply mount_is_lawful. Qed.

Lemma mount_items_other (items : odict adapter_ref) (k : string) :
  forall s : Session,
    ~ In k (dict_keys items) ->
    dict_get k (adapters (fold_left (fun s kv => mount (fst kv) (snd kv) s)
                            items s))
    = dict_get k (adapters s).
Proof.
  induction items as [|[k0 v0] items IH]; simpl; intros s Hnot; auto.
  rewrite IH by tauto. unfold mount. simpl.
  apply mount_other. intros ->. tauto.
Qed.

Lemma mount_items_get (items : odict adapter_ref) (k : string)
  (v : adapter_ref) :
  forall s : Session,
    wf_dict items -> In (k, v) items ->
    dict_get k (adapters (fold_left (fun s kv => mount (fst kv) (snd kv) s)
                            items s))
    = Some v.
Proof.
  unfold wf_dict.
  induction items as [|[k0 v0] items IH]; simpl; intros s Hnd Hin; [tauto|].
  inversion Hnd as [|? ? Hnotin Hnd']; subst.
  destruct Hin as [Heq|Hin].
  - inversion Heq; subst. rewrite mount_items_other by assumption.
    unfold mount. simpl. apply mount_same.
  - now apply IH.
Qed.

Lemma mount_keys_keep (keys : list string) (adapter : adapter_ref)
  (k : string) :
  forall s : Session,
    dict_get k (adapters s) = Some adapter ->
    dict_get k (adapters (fold_left (fun s k' => mount k' adapter s) keys s))
    = Some adapter.
Proof.
  induction keys as [|k0 keys IH]; simpl; intros s Hs; auto.
  apply IH. unfold mount. simpl.
  destruct (string_dec k k0) as [->|Hne]; [apply mount_same|].
  now rewrite mount_other.
Qed.

Lemma mount_keys_get (keys : list string) (adapter : adapter_ref)
  (k : string) :
  forall s : Session,
    In k keys ->
    dict_get k (adapters (fold_left (fun s k' => mount k' adapter s) keys s))
    = Some adapter.
Proof.
  induction keys as [|k0 keys IH]; simpl; intros s Hin; [tauto|].
  destruct Hin as [->|Hin]; [|now apply IH].
  apply mount_keys_keep. unfold mount. simpl. apply mount_same.
Qed.

Lemma init_fields (ref : nat) (s : Session) (dir : pyval) (dco : dict)
  (g g' : globals) (bm : Betamax.t) :
  Betamax.init ref s dir dco g = (Ok bm, g') ->
  Betamax.session bm = s
  /\ Betamax.http_adapters bm = adapters s
  /\ Betamax.betamax_adapter bm
     = BetamaxAdapter.init (Interceptor ref) (adapters s).
Proof.
  unfold Betamax.init, Configuration.default_cassette_options.
  destruct (default_cassette_options g); try discriminate.
  destruct (py_truthy dir); simpl.
  - intros H; inversion H; subst; simpl; auto.
  - intros H; inversion H; subst; simpl; auto.
Qed.

(** C8, amended: with a lawful [mount], for a controller built on a
    session, whatever has been mounted on the session between the
    construction and [start] ([s1] is the session as [start] finds it),
    [start] mounts the interception adapter on every prefix the session had
    at construction, and a [stop] after it, in which ejecting the cassette
    does not raise, returns with every such prefix mounted to the adapter it
    had at construction, no cassette loaded in the interception adapter, and
    the adapter closed.  [a1] is the state of the interception adapter when
    [stop] is called. *)
Theorem C8_stop_restores_adapters (ref : nat) (s s1 : Session) (dir : pyval)
  (dco : dict) (g g' : globals) (bm : Betamax.t) (a1 : BetamaxAdapter.t) :
  Betamax.init ref s dir dco g = (Ok bm, g') ->
  wf_dict (adapters s) ->
  (forall c, BetamaxAdapter.cassette a1 = Some c -> fst (eject c) = Ok tt) ->
  let started := Betamax.start (Betamax.set_session bm s1) in
  exists bm',
    Betamax.stop (Betamax.set_betamax_adapter started a1) = (Ok tt, bm')
    /\ (forall k v, dict_get k (adapters s) = Some v ->
          dict_get k (adapters (Betamax.session started))
          = Some (Interceptor ref)
          /\ dict_get k (adapters (Betamax.session bm')) = Some v)
    /\ BetamaxAdapter.cassette (Betamax.betamax_adapter bm') = None
    /\ BetamaxAdapter.calls (Betamax.betamax_adapter bm')
       = (BetamaxAdapter.calls a1
          ++ match BetamaxAdapter.cassette a1 with
             | Some _ => [EvEject]
             | None => []
             end
          ++ [EvHttpAdapterClose])%list.
Proof.
  intros Hinit Hwf Heject started.
  destruct (init_fields _ _ _ _ _ Hinit) as (Hs & Hhttp & Hadapter).
  unfold Betamax.stop, Betamax.on_adapter, BetamaxAdapter.eject_cassette,
    BetamaxAdapter.close, BetamaxAdapter.on_cassette, bind, get, put, ret.
  simpl.
  assert (Hrestore : forall b k v, dict_get k (adapters s) = Some v ->
            dict_get k (adapters (Betamax.session started))
            = Some (Interceptor ref)
            /\ dict_get k (adapters
                 (fold_left (fun s0 kv => mount (fst kv) (snd kv) s0)
                    (Betamax.http_adapters bm) b))
               = Some v).
  { intros b k v Hk. apply dict_get_In in Hk. split.
    - unfold started, Betamax.start. simpl. rewrite Hadapter, Hhttp. simpl.
      apply mount_keys_get. unfold dict_keys.
      change k with (fst (k, v)). now apply in_map.
    - rewrite Hhttp. now apply mount_items_get. }
  destruct (BetamaxAdapter.cassette a1) as [c|] eqn:Ec; simpl.
  - rewrite Ec. specialize (Heject c eq_refl).
    destruct (eject c) as [r c1]. simpl in Heject. subst r. simpl.
    eexists. split; [reflexivity|]. simpl.
    split; [intros k v Hk; now apply Hrestore|].
    split; [reflexivity|]. now rewrite <- app_assoc.
  - eexists. split; [reflexivity|]. simpl.
    split; [intros k v Hk; now apply Hrestore|].
    split; reflexivity.
Qed.

End RecorderFacts.

Lemma C8_stop_restores_adapters_witness :
  let s := {| adapters := default_adapters |} in
  let bm := {| Betamax.session := s;
               Betamax.http_adapters := default_adapters;
               Betamax.betamax_adapter :=
                 BetamaxAdapter.init (Interceptor 0) default_adapters;
               Betamax.config := Configuration.init |} in
  let a1 := sample_adapter default_adapters "once" in
  let started := Betamax.start (client := requests_client)
                   (Betamax.set_session bm remounted_session) in
  exists bm',
    Betamax.stop (host := host0) (client := requests_client)
      (Betamax.set_betamax_adapter started a1) = (Ok tt, bm')
    /\ (forall k v, dict_get k (adapters s) = Some v ->
          dict_get k (adapters (Betamax.session started))
          = Some (Interceptor 0)
          /\ dict_get k (adapters (Betamax.session bm')) = Some v)
    /\ BetamaxAdapter.cassette (Betamax.betamax_adapter bm') = None
    /\ BetamaxAdapter.calls (Betamax.betamax_adapter bm')
       = (BetamaxAdapter.calls a1
          ++ match BetamaxAdapter.cassette a1 with
             | Some _ => [EvEject]
             | None => []
             end
          ++ [EvHttpAdapterClose])%list.
Proof.
  intros s bm a1.
  apply (@C8_stop_restores_adapters host0 requests_client
           requests_client_lawful 0 s remounted_session PyNone []
           initial_globals initial_globals bm a1).
  - reflexivity.
  - unfold wf_dict. simpl.
    repeat (constructor; [simpl; intuition discriminate|]). constructor.
  - intros c _. reflexivity.
Defined.

(** C8 as worded for the adapters mounted before [start] fails: with
    [http://] mounted on another adapter between the construction of the
    controller and [start], [stop] puts [http://] on the adapter it had at
    construction, not on the one it had before [start]. *)
Lemma C8_counterexample :
  let s := {| adapters := default_adapters |} in
  let bm := {| Betamax.session := s;
               Betamax.http_adapters := default_adapters;
               Betamax.betamax_adapter :=
                 BetamaxAdapter.init (Interceptor 0) default_adapters;
               Betamax.config := Configuration.init |} in
  let before_start := Betamax.set_session bm remounted_session in
  let stopped := snd (Betamax.stop (host := host0) (client := requests_client)
                        (Betamax.start (client := requests_client)
                           before_start)) in
  Betamax.init 0 s PyNone [] initial_globals = (Ok bm, initial_globals)
  /\ dict_get "http://" (adapters (Betamax.session before_start))
     = Some (HostAdapter 9)
  /\ fst (Betamax.stop (host := host0) (client := requests_client)
            (Betamax.start (client := requests_client) before_start))
     = Ok tt
  /\ dict_get "http://" (adapters (Betamax.session stopped))
     = Some (HostAdapter 1)
  /\ dict_get "http://" (adapters (Betamax.session stopped))
     <> dict_get "http://" (adapters (Betamax.session before_start)).
Proof. repeat split; try reflexivity. discriminate. Qed.

(** ** The process-wide defaults *)



Lemma rename_record_mode_fst (k0 : string) (v0 : pyval) :
  Options.rename_record_mode (k0, v0)
  = if String.eqb k0 "record_mode" then ("record"%string, v0) else (k0, v0).
Proof.
  unfold Options.rename_record_mode. cbn [fst snd].
  now destruct (String.eqb k0 "record_mode").
Qed.



Lemma getitem_fallback (opts : Options.t) (k : string) :
  Options.contains opts k = false ->
  Options.getitem opts k = dict_get_or k PyNone (Options.defaults opts).
Proof.
  unfold Options.contains, dict_contains, Options.getitem, dict_get_or.
  now destruct (dict_get k (Options.data opts)).
Qed.


(** C10: assigning any value, [False] included, to the attribute
    [preserve_exact_body_bytes] of a configuration returns, and the
    process-wide table of defaults read afterwards holds [True] under that
    key, whatever it held before and whatever was assigned; the other keys
    of the table and the library directory are as before. *)
Theorem C10_preserve_exact_body_bytes_ignores_value (cfg : Configuration.t)
  (g : globals) (table : dict) (v : pyval) :
  default_cassette_options g = PyDict table ->
  exists g',
    Configuration.setattr "preserve_exact_body_bytes" v (cfg, g)
    = (Ok tt, (cfg, g'))
    /\ default_cassette_options g'
       = PyDict (dict_set "preserve_exact_body_bytes" (PyBool true) table)
    /\ (forall cfg' : Configuration.t,
          py_getitem (Configuration.default_cassette_options cfg' g')
            "preserve_exact_body_bytes" = Ok (PyBool true))
    /\ (forall k, k <> "preserve_exact_body_bytes"%string ->
                  py_getitem (default_cassette_options g') k
                  = py_getitem (default_cassette_options g) k)
    /\ CASSETTE_LIBRARY_DIR g' = CASSETTE_LIBRARY_DIR g.
Proof.
  intros Hg.
  unfold Configuration.setattr, Configuration.default_cassette_options.
  simpl. rewrite Hg. simpl.
  eexists. split; [reflexivity|]. simpl.
  split; [reflexivity|]. split; [|split; [|reflexivity]].
  - intros _. now rewrite dict_get_set_same.
  - intros k Hk. simpl. now rewrite dict_get_set_other.
Qed.

Lemma C10_preserve_exact_body_bytes_witness :
  py_getitem (default_cassette_options initial_globals)
    "preserve_exact_body_bytes" = Ok (PyBool false)
  /\ exists g',
      Configuration.setattr "preserve_exact_body_bytes" (PyBool false)
        (Configuration.init, initial_globals)
      = (Ok tt, (Configuration.init, g'))
      /\ default_cassette_options g'
         = PyDict (dict_set "preserve_exact_body_bytes" (PyBool true)
                     initial_default_cassette_options)
      /\ (forall cfg' : Configuration.t,
            py_getitem (Configuration.default_cassette_options cfg' g')
              "preserve_exact_body_bytes" = Ok (PyBool true))
      /\ (forall k, k <> "preserve_exact_body_bytes"%string ->
                    py_getitem (default_cassette_options g') k
                    = py_getitem (default_cassette_options initial_globals) k)
      /\ CASSETTE_LIBRARY_DIR g' = CASSETTE_LIBRARY_DIR initial_globals.
Proof.
  split; [reflexivity|].
  apply (@C10_preserve_exact_body_bytes_ignores_value Configuration.init
           initial_globals initial_default_cassette_options (PyBool false)).
  reflexivity.
Defined.




(** The writes as later values see them, from the initial state. *)
Example later_options_see_the_writes :
  let g0 := initial_globals in
  let g1 := snd (snd (Configuration.setattr "preserve_exact_body_bytes"
                        (PyBool false) (Configuration.init, g0))) in
  let g2 := snd (snd (Configuration.define_cassette_placeholder
                        (PyStr "<URI>") (PyStr "http://httpbin.org")
                        (Configuration.init, g1))) in
  let g3 := snd (Betamax.init 1 {| adapters := default_adapters |} PyNone
                   [("record_mode"%string, PyStr "all")] g2) in
  let opts := options_of g3 [] in
  Options.getitem opts "preserve_exact_body_bytes" = PyBool true
  /\ Options.getitem opts "placeholders"
     = PyList [placeholder_entry (PyStr "<URI>") (PyStr "http://httpbin.org")]
  /\ Options.getitem opts "record" = PyStr "all".
Proof. repeat split; reflexivity. Qed.

(** * Further properties *)

(** ** The predicates of [Options.valid_options] *)

Lemma py_in_strs (v : pyval) (l : list string) :
  py_in v (map PyStr l) = true <-> exists s, v = PyStr s /\ In s l.
Proof.
  unfold py_in. rewrite existsb_exists. split.
  - intros (x & Hin & Heq). apply in_map_iff in Hin.
    destruct Hin as (s & <- & Hs). apply py_eq_str in Heq. eauto.
  - intros (s & -> & Hs). exists (PyStr s). split.
    + now apply in_map.
    + simpl. apply String.eqb_refl.
Qed.

(** [validate_record] never raises and accepts the four mode names, as
    strings, and nothing else. *)
Theorem validate_record_accepts_the_four_modes (v : pyval) :
  (Options.validate_record v = Ok true
   <-> In v [PyStr "all"; PyStr "new_episodes"; PyStr "none"; PyStr "once"])
  /\ (Options.validate_record v = Ok false
      <-> ~ In v [PyStr "all"; PyStr "new_episodes"; PyStr "none";
                  PyStr "once"]).
Proof.
  assert (Hiff : py_in v [PyStr "all"; PyStr "new_episodes"; PyStr "none";
                          PyStr "once"] = true
                 <-> In v [PyStr "all"; PyStr "new_episodes"; PyStr "none";
                           PyStr "once"]).
  { change [PyStr "all"; PyStr "new_episodes"; PyStr "none"; PyStr "once"]
      with (map PyStr ["all"; "new_episodes"; "none"; "once"]%string).
    rewrite py_in_strs. split.
    - intros (s & -> & Hs). now apply in_map.
    - intros Hin. apply in_map_iff in Hin. destruct Hin as (s & <- & Hs). eauto. }
  unfold Options.validate_record.
  destruct (py_in v _) eqn:E; split; split; intros H;
    try discriminate; try reflexivity.
  - now apply Hiff.
  - exfalso. apply H. now apply Hiff.
  - apply Hiff in H. discriminate.
  - intros Hin. apply Hiff in Hin. discriminate.
Qed.

(** On [None], a boolean, an integer, a string, a list or a dict the
    predicate of [preserve_exact_body_bytes] does not raise; of these it
    accepts the two booleans and the integers equal to them, [0] and [1],
    and rejects the rest. *)
Theorem preserve_exact_body_bytes_accepts_booleans_and_0_1 (g : globals)
  (v : pyval) :
  exists b,
    entry_valid g ("preserve_exact_body_bytes"%string, v) = Ok b
    /\ (b = true
        <-> In v [PyBool true; PyBool false; PyInt 1; PyInt 0]).
Proof.
  unfold entry_valid. cbn [fst snd].
  change (Options.valid_options g "preserve_exact_body_bytes")
    with (Some (fun x => Ok (py_in x [PyBool true; PyBool false]))).
  eexists. split; [reflexivity|].
  unfold py_in. simpl.
  destruct v as [| b | z | s | l | d]; simpl.
  - split; [discriminate | intuition discriminate].
  - split; [intros _; destruct b; tauto|]. intros _. now destruct b.
  - destruct (Z.eqb_spec z 1) as [->|H1]; simpl.
    + split; [tauto | reflexivity].
    + destruct (Z.eqb_spec z 0) as [->|H0]; simpl.
      * split; [tauto | reflexivity].
      * split; [discriminate|].
        intros [H|[H|[H|[H|[]]]]]; inversion H; congruence.
  - split; [discriminate | intuition discriminate].
  - split; [discriminate | intuition discriminate].
  - split; [discriminate | intuition discriminate].
Qed.

(** The predicate of [re_record_interval] accepts [None], [True] and the
    positive integers, rejects [False] and the other integers, and raises
    a [TypeError] on a string, a list or a dict. *)
Theorem re_record_interval_predicate (g : globals) (v : pyval) :
  (entry_valid g ("re_record_interval"%string, v) = Ok true
   <-> v = PyNone \/ v = PyBool true \/ exists z, v = PyInt z /\ (0 < z)%Z)
  /\ (entry_valid g ("re_record_interval"%string, v) = Ok false
      <-> v = PyBool false \/ exists z, v = PyInt z /\ (z <= 0)%Z)
  /\ (entry_valid g ("re_record_interval"%string, v) = Raise TypeError
      <-> (exists s, v = PyStr s) \/ (exists l, v = PyList l)
          \/ (exists d, v = PyDict d)).
Proof.
  unfold entry_valid. cbn [fst snd].
  change (Options.valid_options g "re_record_interval")
    with (Some (fun x => match x with
                         | PyNone => Ok true
                         | _ => py_gt_zero x
                         end)).
  destruct v as [| b | z | s | l | d]; simpl.
  - repeat split; try tauto; try discriminate;
      intros H; decompose [or ex and] H; discriminate.
  - destruct b; repeat split; try tauto; try discriminate;
      intros H; decompose [or ex and] H; discriminate.
  - destruct (Z.ltb_spec 0 z); repeat split; try discriminate;
      try (intros _; right; right; eauto); try (intros _; right; eauto);
      intros H'; decompose [or ex and] H'; try discriminate;
      match goal with Heq : PyInt _ = PyInt _ |- _ => inversion Heq; subst end;
      lia.
  - repeat split; try discriminate; try (intros _; left; eauto);
      intros H; decompose [or ex and] H; discriminate.
  - repeat split; try discriminate; try (intros _; right; left; eauto);
      intros H; decompose [or ex and] H; discriminate.
  - repeat split; try discriminate; try (intros _; right; right; eauto);
      intros H; decompose [or ex and] H; discriminate.
Qed.

Lemma str_list_eqb_eq (a b : list string) : str_list_eqb a b = true <-> a = b.
Proof.
  revert b. induction a as [|x a IH]; intros [|y b]; simpl;
    try (split; [discriminate | discriminate]); try tauto.
  rewrite andb_true_iff, String.eqb_eq, IH. split.
  - intros [-> ->]. reflexivity.
  - intros H. inversion H. auto.
Qed.

Lemma insert_sorted_length (x : string) (l : list string) :
  List.length (insert_sorted x l) = S (List.length l).
Proof.
  induction l as [|y l IH]; simpl; auto.
  destruct (String.leb x y); simpl; auto.
Qed.

Lemma sorted_length (l : list string) : List.length (sorted l) = List.length l.
Proof.
  unfold sorted. induction l as [|x l IH]; simpl; auto.
  now rewrite insert_sorted_length, IH.
Qed.

(** The keys of a placeholder may come in either order. *)
Lemma sorted_placeholder_keys (l : list string) :
  str_list_eqb (sorted l) ["placeholder"; "replace"]%string = true
  <-> l = ["placeholder"; "replace"]%string
      \/ l = ["replace"; "placeholder"]%string.
Proof.
  rewrite str_list_eqb_eq. split.
  - intros H. pose proof (sorted_length l) as Hlen. rewrite H in Hlen.
    destruct l as [|a [|b [|c l]]]; try discriminate.
    unfold sorted in H. simpl in H.
    destruct (String.leb a b); inversion H; subst; auto.
  - intros [->| ->]; reflexivity.
Qed.

(** [validate_placeholders] accepts a list exactly when every item is a dict
    with the two keys [placeholder] and [replace] and no other, in either
    order. *)
Theorem validate_placeholders_accepts_two_key_dicts (ps : list pyval) :
  Options.validate_placeholders (PyList ps) = Ok true
  <-> Forall is_placeholder ps.
Proof.
  unfold Options.validate_placeholders. simpl.
  induction ps as [|p ps IH]; simpl.
  - split; [constructor | reflexivity].
  - destruct p as [| b | z | s | l | d];
      try (split; [discriminate |
                   intros H; inversion H as [|? ? (d' & Hd & _) _]; discriminate]).
    destruct (str_list_eqb (sorted (dict_keys d)) _) eqn:E.
    + rewrite IH. apply sorted_placeholder_keys in E. split.
      * intros H. constructor; [exists d; auto | exact H].
      * intros H. now inversion H.
    + split; [discriminate|].
      intros H. inversion H as [|? ? (d' & Hd & Hkeys) _].
      inversion Hd; subst d'. apply sorted_placeholder_keys in Hkeys.
      congruence.
Qed.

(** [validate_matchers] accepts a list exactly when every item is the name,
    as a string, of a registered matcher. *)
Theorem validate_matchers_accepts_registered_names (g : globals)
  (ms : list pyval) :
  Options.validate_matchers g (PyList ms) = Ok true
  <-> Forall (fun m => exists n, m = PyStr n /\ In n (matcher_registry g)) ms.
Proof.
  unfold Options.validate_matchers. simpl.
  induction ms as [|m ms IH]; simpl.
  - split; [constructor | reflexivity].
  - destruct (py_in m (map PyStr (matcher_registry g))) eqn:E.
    + rewrite IH. apply py_in_strs in E. split.
      * intros H. now constructor.
      * intros H. now inversion H.
    + split; [discriminate|].
      intros H. inversion H as [|? ? Hm _]. apply py_in_strs in Hm. congruence.
Qed.

Lemma py_all_total (f : pyval -> bool) (l : list pyval) :
  exists b, py_all (fun x => Ok (f x)) l = Ok b.
Proof.
  induction l as [|x l IH]; simpl; eauto.
  destruct (f x); eauto.
Qed.

(** [validate_matchers] raises exactly on a value that cannot be iterated,
    [None], a boolean or an integer, and what it raises is a [TypeError]. *)
Theorem validate_matchers_raises_on_non_iterables (g : globals) (v : pyval) :
  let not_iterable :=
    v = PyNone \/ (exists b, v = PyBool b) \/ (exists z, v = PyInt z) in
  (forall e, Options.validate_matchers g v = Raise e ->
             e = TypeError /\ not_iterable)
  /\ (not_iterable -> Options.validate_matchers g v = Raise TypeError).
Proof.
  unfold Options.validate_matchers. split.
  - intros e He.
    destruct v as [| b | z | s | l | d]; simpl in He;
      try (injection He as <-; split; eauto).
    + destruct (py_all_total
                  (fun m => py_in m (map PyStr (matcher_registry g)))
                  (map PyStr (chars_of s))) as [b Hb].
      rewrite Hb in He. discriminate.
    + destruct (py_all_total
                  (fun m => py_in m (map PyStr (matcher_registry g))) l)
        as [b Hb].
      rewrite Hb in He. discriminate.
    + destruct (py_all_total
                  (fun m => py_in m (map PyStr (matcher_registry g)))
                  (map PyStr (dict_keys d))) as [b Hb].
      rewrite Hb in He. discriminate.
  - intros [->|[[b ->]|[z ->]]]; reflexivity.
Qed.

(** ** [Options]: validation and lookup *)

Lemma dict_remove_In {V : Type} (k : string) (d : odict V) (kv : string * V) :
  In kv (dict_remove k d) -> In kv d.
Proof.
  induction d as [|[k0 v0] d IH]; simpl; auto.
  destruct (String.eqb k k0); simpl; intuition.
Qed.

Lemma wf_dict_remove {V : Type} (k : string) (d : odict V) :
  wf_dict d -> wf_dict (dict_remove k d).
Proof.
  unfold wf_dict, dict_keys. induction d as [|[k0 v0] d IH]; simpl; auto.
  intros Hnd. inversion Hnd as [|? ? Hnotin Hnd']; subst.
  destruct (String.eqb k k0); simpl; auto.
  constructor; auto.
  intros Hin. apply Hnotin. apply in_map_iff in Hin.
  destruct Hin as (kv & Hfst & Hkv). apply dict_remove_In in Hkv.
  rewrite <- Hfst. now apply in_map.
Qed.

Lemma delitem_state (k : string) (d : dict) :
  snd (Options.delitem k d) = d \/ snd (Options.delitem k d) = dict_remove k d.
Proof.
  unfold Options.delitem, dict_del. destruct (dict_contains k d); simpl; auto.
Qed.

Lemma validate_items_shrinks (g : globals) (items : list (string * pyval)) :
  forall d : dict,
    incl (snd (Options.validate_items g items d)) d
    /\ (wf_dict d -> wf_dict (snd (Options.validate_items g items d))).
Proof.
  induction items as [|[k v] items IH]; intros d; simpl.
  - split; [apply incl_refl | auto].
  - assert (Hdel : incl (snd (Options.validate_items g items
                                (snd (Options.delitem k d)))) d
                   /\ (wf_dict d ->
                       wf_dict (snd (Options.validate_items g items
                                       (snd (Options.delitem k d)))))).
    { destruct (IH (snd (Options.delitem k d))) as [Hincl Hwf].
      destruct (delitem_state k d) as [Heq|Heq]; rewrite Heq in *.
      - split; auto.
      - split.
        + intros kv Hkv. apply Hincl in Hkv. now apply dict_remove_In in Hkv.
        + intros Hd. apply Hwf. now apply wf_dict_remove. }
    assert (Hdelete :
      incl (snd (bind (Options.delitem k)
                   (fun _ => Options.validate_items g items) d)) d
      /\ (wf_dict d ->
          wf_dict (snd (bind (Options.delitem k)
                          (fun _ => Options.validate_items g items) d)))).
    { unfold bind. destruct (Options.delitem k d) as [[[]|e] d'] eqn:E.
      - simpl in Hdel. exact Hdel.
      - simpl. unfold Options.delitem in E.
        destruct (dict_del k d); inversion E; subst.
        split; [apply incl_refl | auto]. }
    destruct (Options.valid_options g k) as [is_valid|]; [|exact Hdelete].
    unfold bind at 1. unfold lift at 1.
    destruct (is_valid v) as [[|]|e]; simpl negb; cbv iota.
    + apply IH.
    + exact Hdelete.
    + simpl. split; [apply incl_refl | auto].
Qed.

(** Whatever the mapping and whether or not it raises, [validate] only
    removes entries: every entry it leaves was there, and the keys stay
    distinct. *)
Theorem validate_only_removes (g : globals) (raw : dict) :
  incl (snd (Options.validate g raw)) raw
  /\ (wf_dict raw -> wf_dict (snd (Options.validate g raw))).
Proof. unfold Options.validate. apply validate_items_shrinks. Qed.

Lemma filter_twice {A : Type} (f : A -> bool) (l : list A) :
  filter f (filter f l) = filter f l.
Proof.
  induction l as [|x l IH]; simpl; auto.
  destruct (f x) eqn:E; simpl; [rewrite E|]; congruence.
Qed.

Lemma wf_dict_filter {V : Type} (f : string * V -> bool) (d : odict V) :
  wf_dict d -> wf_dict (filter f d).
Proof.
  unfold wf_dict, dict_keys. induction d as [|[k v] d IH]; simpl; auto.
  intros Hnd. inversion Hnd as [|? ? Hnotin Hnd']; subst.
  destruct (f (k, v)); simpl; auto.
  constructor; auto.
  intros Hin. apply Hnotin. apply in_map_iff in Hin.
  destruct Hin as (kv & Hfst & Hkv). apply filter_In in Hkv.
  rewrite <- Hfst. now apply in_map.
Qed.

(** When no predicate raises, validating a second time changes nothing. *)
Theorem validate_is_idempotent (g : globals) (raw : dict) :
  wf_dict raw ->
  (forall kv, In kv raw -> exists b, entry_valid g kv = Ok b) ->
  Options.validate g (snd (Options.validate g raw))
  = (Ok tt, snd (Options.validate g raw)).
Proof.
  intros Hwf Hok.
  rewrite (@validate_keeps_valid_entries g raw Hwf Hok). simpl snd.
  rewrite validate_keeps_valid_entries.
  - now rewrite filter_twice.
  - now apply wf_dict_filter.
  - intros kv Hin. apply filter_In in Hin. apply Hok. tauto.
Qed.

(** When no predicate raises, [Options(raw)] is built, and it contains
    exactly the entries of [raw] with a recognized key and a value that the
    key's predicate accepts, each with the value given. *)
Theorem options_hold_exactly_the_valid_entries (g : globals) (table raw : dict) :
  default_cassette_options g = PyDict table ->
  wf_dict raw ->
  (forall kv, In kv raw -> exists b, entry_valid g kv = Ok b) ->
  exists opts,
    Options.init g raw = Ok opts
    /\ forall k v,
         In (k, v) raw ->
         if survives g (k, v)
         then Options.contains opts k = true /\ Options.getitem opts k = v
         else Options.contains opts k = false.
Proof.
  intros Hg Hwf Hok. unfold Options.init.
  rewrite (@validate_keeps_valid_entries g raw Hwf Hok).
  unfold Options.translate_cassette_options. rewrite Hg.
  eexists. split; [reflexivity|].
  intros k v Hin. unfold Options.contains, dict_contains, Options.getitem,
    dict_get_or. simpl.
  destruct (survives g (k, v)) eqn:E.
  - assert (Hget : dict_get k (filter (survives g) raw) = Some v).
    { apply In_dict_get; [now apply wf_dict_filter|].
      apply filter_In. auto. }
    rewrite Hget. auto.
  - now rewrite (@rejected_entry_is_absent g raw k v Hwf Hin E).
Qed.

(** A key that is neither given explicitly nor named by the process-wide
    table falls back on [Options.defaults]; a key unknown there gives
    [None]. *)
Theorem options_fall_back_on_class_defaults (g : globals) (table raw : dict)
  (opts : Options.t) (k : string) :
  default_cassette_options g = PyDict table ->
  Options.init g raw = Ok opts ->
  Options.contains opts k = false ->
  ~ In k (dict_keys table) ->
  (k = "record"%string -> ~ In "record_mode"%string (dict_keys table)) ->
  Options.getitem opts k = dict_get_or k PyNone Options.class_defaults.
Proof.
  intros Hg Hinit Hc Hk Hrecord.
  rewrite getitem_fallback by assumption.
  unfold Options.init in Hinit.
  destruct (Options.validate g raw) as [[[]|e] d]; [|discriminate].
  unfold Options.translate_cassette_options in Hinit. rewrite Hg in Hinit.
  injection Hinit as <-. simpl. unfold dict_get_or.
  rewrite dict_update_get_other; [reflexivity|].
  intros Hin. apply in_map_iff in Hin. destruct Hin as ([k0 v0] & Hfst & Hin).
  apply in_map_iff in Hin. destruct Hin as ([k1 v1] & Hren & Hin).
  rewrite rename_record_mode_fst in Hren.
  assert (Hk1 : In k1 (dict_keys table)).
  { unfold dict_keys. change k1 with (fst (k1, v1)). now apply in_map. }
  simpl in Hfst. subst k0.
  destruct (String.eqb_spec k1 "record_mode") as [->|Hne];
    inversion Hren; subst.
  - now apply Hrecord.
  - now apply Hk.
Qed.

(** ** [Configuration] and the process-wide state *)

Lemma py_all_app (f : pyval -> result bool) (l : list pyval) (x : pyval) :
  py_all f l = Ok true -> f x = Ok true -> py_all f (l ++ [x]) = Ok true.
Proof.
  intros Hl Hx. induction l as [|y l IH]; simpl in *.
  - now rewrite Hx.
  - destruct (f y) as [[|]|e]; try discriminate. now apply IH.
Qed.

(** A controller built with a truthy [cassette_library_dir] makes it the
    library directory of every configuration; built with [None] or an empty
    string it leaves the directory as it was. *)
Theorem betamax_sets_library_dir_when_truthy (ref : nat) (s : Session)
  (dir : pyval) (options : dict) (g g' : globals) (bm : Betamax.t) :
  Betamax.init ref s dir options g = (Ok bm, g') ->
  forall cfg : Configuration.t,
    Configuration.cassette_library_dir cfg g'
    = if py_truthy dir then dir else CASSETTE_LIBRARY_DIR g.
Proof.
  unfold Betamax.init, Configuration.default_cassette_options,
    Configuration.cassette_library_dir.
  destruct (default_cassette_options g); try discriminate.
  destruct (py_truthy dir); simpl; intros H cfg; inversion H; reflexivity.
Qed.

(** [define_cassette_placeholder] on a table without the key
    [placeholders] raises a [KeyError], and on a table that holds something
    other than a list there an [AttributeError]; either way nothing is
    changed. *)
Theorem define_cassette_placeholder_needs_a_list (cfg : Configuration.t)
  (g : globals) (table : dict) (placeholder replace : pyval) :
  default_cassette_options g = PyDict table ->
  (dict_get "placeholders" table = None ->
   Configuration.define_cassette_placeholder placeholder replace (cfg, g)
   = (Raise (KeyError "placeholders"), (cfg, g)))
  /\ (forall v, dict_get "placeholders" table = Some v ->
                (forall l, v <> PyList l) ->
                Configuration.define_cassette_placeholder placeholder replace
                  (cfg, g)
                = (Raise AttributeError, (cfg, g))).
Proof.
  intros Hg.
  unfold Configuration.define_cassette_placeholder,
    Configuration.default_cassette_options.
  rewrite Hg. simpl. split.
  - intros ->. reflexivity.
  - intros v -> Hv. destruct v; try reflexivity. now destruct (Hv l).
Qed.

(** A list of placeholders that [validate_placeholders] accepts is still
    accepted after [define_cassette_placeholder] has extended it, whatever
    the two values given. *)
Theorem defined_placeholders_stay_valid (cfg : Configuration.t) (g : globals)
  (table : dict) (l : list pyval) (placeholder replace : pyval) :
  default_cassette_options g = PyDict table ->
  dict_get "placeholders" table = Some (PyList l) ->
  Options.validate_placeholders (PyList l) = Ok true ->
  exists g',
    Configuration.define_cassette_placeholder placeholder replace (cfg, g)
    = (Ok tt, (cfg, g'))
    /\ py_getitem (default_cassette_options g') "placeholders"
       = Ok (PyList (l ++ [placeholder_entry placeholder replace]))
    /\ Options.validate_placeholders
         (PyList (l ++ [placeholder_entry placeholder replace])) = Ok true.
Proof.
  intros Hg Hl Hvalid.
  unfold Configuration.define_cassette_placeholder,
    Configuration.default_cassette_options.
  rewrite Hg. simpl. rewrite Hl.
  eexists. split; [reflexivity|]. split.
  - simpl. now rewrite dict_get_set_same.
  - unfold Options.validate_placeholders in *. simpl in *.
    now apply py_all_app.
Qed.

(** ** The adapter: replay, recording failures, ejecting *)

Section SendFacts.

Context {host : Host}.

Import BetamaxAdapter.

(** On a hit [send] replays: it answers from the interaction found, with
    itself as the connection, and has called nothing but [find_match]: not
    [is_recording], no transport, not [save_interaction]. *)
Theorem send_replays_a_match (a : t) (c c' : Cassette.t) (request : Request)
  (args : send_args) (i : Interaction) :
  cassette a = Some c ->
  Cassette.interactions c <> [] ->
  find_match request c = (Ok (Some i), c') ->
  send request args a
  = (Ok (set_connection (as_response i) (Some (self_ref a))),
     set_cassette (log (EvFindMatch request) a) (Some c')).
Proof.
  intros Hc Hne Hfind. unfold send, bind, get, ret, on_cassette. simpl.
  rewrite Hc. destruct (Cassette.interactions c) as [|i0 l]; [congruence|].
  rewrite Hc, Hfind. reflexivity.
Qed.

(** On a cassette that holds no interaction [send] never calls
    [find_match]: the first call it makes is [is_recording]. *)
Theorem send_on_empty_cassette_skips_lookup (a : t) (c : Cassette.t)
  (request : Request) (args : send_args) :
  cassette a = Some c ->
  Cassette.interactions c = [] ->
  exists rest,
    calls (snd (send request args a)) = (calls a ++ EvIsRecording :: rest)%list
    /\ existsb is_find_match rest = false.
Proof.
  intros Hc Hnil.
  unfold send, send_and_record, bind, get, put, ret, raise, on_cassette,
    find_adapter.
  simpl. rewrite Hc, Hnil. simpl. rewrite Hc. simpl.
  destruct (is_recording c); simpl.
  2:{ exists []. split; reflexivity. }
  destruct (find_adapter_in (old_adapters a) (url request)) as [adapter|];
    simpl.
  2:{ exists []. split; reflexivity. }
  destruct (transport_send adapter request (with_stream args true))
    as [response|e]; simpl.
  2:{ eexists. rewrite <- app_assoc. split; reflexivity. }
  destruct (save_interaction response request c) as [[[]|e] c2]; simpl.
  - destruct (last_interaction c2); simpl;
      eexists; rewrite <- !app_assoc; split; reflexivity.
  - eexists. rewrite <- !app_assoc. split; reflexivity.
Qed.

(** When the transport raises during a recording, [send] raises the same
    exception; the transport was called with [stream=True] and the caller's
    other arguments, whatever [stream] the caller gave; [save_interaction]
    is not called and the cassette is as the lookup left it. *)
Theorem send_propagates_a_transport_error (a : t) (c c1 : Cassette.t)
  (request : Request) (args : send_args) (adapter : adapter_ref) (e : exn) :
  let sent := {| stream := true;
                 timeout := timeout args;
                 verify := verify args;
                 cert := cert args;
                 proxies := proxies args |} in
  cassette a = Some c ->
  lookup_misses request c c1 ->
  is_recording c1 = true ->
  find_adapter a (url request) = Some adapter ->
  transport_send adapter request sent = Raise e ->
  exists a',
    send request args a = (Raise e, a')
    /\ cassette a' = Some c1
    /\ calls a'
       = (calls a ++ lookup_calls request c
          ++ [EvIsRecording; EvTransportSend adapter request sent])%list.
Proof.
  intros sent Hc Hmiss Hrec Hfind Hsend.
  assert (Hsent : with_stream args true = sent) by reflexivity.
  unfold send, send_and_record, bind, get, put, ret, raise, on_cassette,
    lookup_calls.
  simpl. rewrite Hc.
  destruct Hmiss as [[Hnil ->]|[Hne Hmatch]].
  - rewrite Hnil. simpl. rewrite Hc. simpl. rewrite Hrec. simpl.
    unfold find_adapter in *. simpl. rewrite Hfind, Hsent, Hsend. simpl.
    eexists. split; [reflexivity|]. split; [reflexivity|].
    simpl. now rewrite <- app_assoc.
  - destruct (Cassette.interactions c) as [|i0 l]; [congruence|].
    rewrite Hc, Hmatch. simpl. rewrite Hrec. simpl.
    unfold find_adapter in *. simpl. rewrite Hfind, Hsent, Hsend. simpl.
    eexists. split; [reflexivity|]. split; [reflexivity|].
    simpl. now rewrite <- !app_assoc.
Qed.

Lemma find_adapter_in_none (items : odict adapter_ref) (u : string) :
  (forall p h, In (p, h) items -> startswith (lower u) p = false) ->
  find_adapter_in items u = None.
Proof.
  induction items as [|[p h] items IH]; simpl; intros Hno; auto.
  rewrite (Hno p h) by now left. apply IH. intros p' h' Hin.
  apply (Hno p' h'). now right.
Qed.

(** When recording is permitted but no preserved prefix matches the
    lowercased URL, [send] raises an [AttributeError]; no transport is
    called and nothing is saved. *)
Theorem send_without_matching_prefix (a : t) (c c1 : Cassette.t)
  (request : Request) (args : send_args) :
  cassette a = Some c ->
  lookup_misses request c c1 ->
  is_recording c1 = true ->
  (forall p h, In (p, h) (old_adapters a) ->
               startswith (lower (url request)) p = false) ->
  exists a',
    send request args a = (Raise AttributeError, a')
    /\ cassette a' = Some c1
    /\ calls a' = (calls a ++ lookup_calls request c ++ [EvIsRecording])%list.
Proof.
  intros Hc Hmiss Hrec Hno. apply find_adapter_in_none in Hno.
  unfold send, send_and_record, bind, get, put, ret, raise, on_cassette,
    lookup_calls, find_adapter.
  simpl. rewrite Hc.
  destruct Hmiss as [[Hnil ->]|[Hne Hmatch]].
  - rewrite Hnil. simpl. rewrite Hc. simpl. rewrite Hrec. simpl.
    rewrite Hno. eexists. split; [reflexivity|]. split; reflexivity.
  - destruct (Cassette.interactions c) as [|i0 l]; [congruence|].
    rewrite Hc, Hmatch. simpl. rewrite Hrec. simpl. rewrite Hno.
    eexists. split; [reflexivity|]. split; [reflexivity|].
    simpl. now rewrite <- app_assoc.
Qed.

Lemma set_cassette_same (a : t) : set_cassette a (cassette a) = a.
Proof. now destruct a. Qed.

(** Once [eject_cassette] has returned, ejecting again changes nothing and
    calls nothing: [Cassette.eject] runs once. *)
Theorem eject_cassette_twice (a a1 : t) :
  eject_cassette a = (Ok tt, a1) ->
  eject_cassette a1 = (Ok tt, a1).
Proof.
  intros H. apply eject_cassette_unloads in H.
  unfold eject_cassette, bind, get, put, ret. simpl.
  rewrite H. simpl. rewrite <- H. now rewrite set_cassette_same.
Qed.

(** When [Cassette.eject] raises, [eject_cassette] raises the same exception
    and the cassette stays loaded. *)
Theorem eject_cassette_failure_keeps_cassette (a : t) (c c' : Cassette.t)
  (e : exn) :
  cassette a = Some c ->
  eject c = (Raise e, c') ->
  eject_cassette a = (Raise e, set_cassette (log EvEject a) (Some c')).
Proof.
  intros Hc He. unfold eject_cassette, bind, get, put, ret, on_cassette.
  simpl. rewrite Hc. simpl. rewrite Hc, He. reflexivity.
Qed.

End SendFacts.

(** ** Loading a cassette *)

Section LoadCassetteFacts.

Context {host : Host}.

Import BetamaxAdapter.

Lemma load_cassette_arguments (g : globals) (now : datetime) (name : string)
  (ser : pyval) (opts : Options.t) (a : t) :
  let a' := snd (load_cassette g now name ser opts a) in
  options a' = dict_update (options a) (Options.items opts)
  /\ cassette_name a' = Some name
  /\ serialize a' = ser
  /\ old_adapters a' = old_adapters a
  /\ self_ref a' = self_ref a.
Proof.
  unfold load_cassette, bind, get, put, ret, lift, on_cassette. simpl.
  destruct (py_getitem (default_cassette_options g) "match_requests_on")
    as [default_match|e]; simpl; [|repeat split; reflexivity].
  destruct (Cassette_init _ _ _ _ _ _) as [c|e]; simpl;
    [|repeat split; reflexivity].
  destruct (py_truthy _); simpl.
  - destruct (timedelta_days _) as [interval|e]; simpl;
      [|repeat split; reflexivity].
    destruct (interval <? _)%Z; simpl; [|repeat split; reflexivity].
    destruct (clear _) as [r c']; simpl. repeat split; reflexivity.
  - destruct (timedelta_max <? _)%Z; simpl; [|repeat split; reflexivity].
    destruct (clear _) as [r c']; simpl. repeat split; reflexivity.
Qed.

(** Whether it returns or raises, [load_cassette] has set the name and the
    serializer and merged the options given into those the adapter already
    had: an option of an earlier load that this load does not give is still
    in force. *)
Theorem load_cassette_accumulates_options (g : globals) (now : datetime)
  (name : string) (ser : pyval) (opts : Options.t) (a : t) (k : string)
  (v : pyval) :
  dict_get k (options a) = Some v ->
  ~ In k (dict_keys (Options.items opts)) ->
  let a' := snd (load_cassette g now name ser opts a) in
  dict_get k (options a') = Some v
  /\ cassette_name a' = Some name
  /\ serialize a' = ser.
Proof.
  intros Hk Hnot a'.
  destruct (load_cassette_arguments g now name ser opts a)
    as (Hopts & Hname & Hser & _).
  fold a' in Hopts, Hname, Hser. rewrite Hopts.
  rewrite dict_update_get_other by assumption. auto.
Qed.

End LoadCassetteFacts.

Section LoadCassetteFailures.

Context {host : Host}.

Import BetamaxAdapter.

(** The default of [match_requests_on] is read from the process-wide table
    before the adapter's own options are looked at: on a table without that
    key [load_cassette] raises a [KeyError] even when the options give
    [match_requests_on]; no cassette is built and the one loaded before
    stays. *)
Theorem load_cassette_reads_default_matchers_first (g : globals)
  (now : datetime) (name : string) (ser : pyval) (opts : Options.t) (a : t)
  (table : dict) :
  default_cassette_options g = PyDict table ->
  dict_get "match_requests_on" table = None ->
  load_cassette g now name ser opts a
  = (Raise (KeyError "match_requests_on"),
     set_load_arguments a name ser
       (dict_update (options a) (Options.items opts))).
Proof.
  intros Hg Hnone. unfold load_cassette, bind, get, put, ret, lift. simpl.
  rewrite Hg. simpl. rewrite Hnone. reflexivity.
Qed.

(** An interval of more than 999999999 days makes [load_cassette] raise an
    [OverflowError] after the new cassette is in place: it stays loaded and
    is not cleared. *)
Theorem load_cassette_interval_overflow (g : globals) (now : datetime)
  (name : string) (ser : pyval) (opts : Options.t) (a : t)
  (default_match : pyval) (c : Cassette.t) (days : Z) :
  let options' := dict_update (options a) (Options.items opts) in
  let c' := apply_options options'
              (dict_get_or "match_requests_on" default_match options') c in
  dict_get "re_record_interval" options' = Some (PyInt days) ->
  (999999999 < days)%Z ->
  py_getitem (default_cassette_options g) "match_requests_on"
  = Ok default_match ->
  Cassette_init name ser
    (dict_get_or "placeholders" (PyList []) options')
    (dict_get_or "record" PyNone options')
    (dict_get_or "preserve_exact_body_bytes" PyNone options')
    (dict_get_or "cassette_library_dir" PyNone options') = Ok c ->
  exists a',
    load_cassette g now name ser opts a = (Raise OverflowError, a')
    /\ cassette a' = Some c'
    /\ calls a' = (calls a ++ [EvCassetteInit name])%list.
Proof.
  intros options' c' Hdays Hbig Hdm Hinit.
  unfold load_cassette, bind, get, put, ret, lift. simpl.
  rewrite Hdm. simpl. fold options'. rewrite Hinit. simpl.
  unfold dict_get_or at 1 2. rewrite Hdays. simpl.
  destruct (Z.eqb_spec days 0) as [->|Hnz]; [lia|]. simpl.
  destruct (Z.leb_spec (Z.abs days) 999999999) as [Hle|Hgt]; [lia|].
  simpl. eexists. repeat split.
Qed.

(** [cassette_exists] is false on a new adapter whatever the file system
    holds, and after [load_cassette], also one that raised, it is whether a
    path of the name given exists, the empty name never being looked up. *)
Theorem cassette_exists_after_load (path_exists : string -> bool)
  (g : globals) (now : datetime) (name : string) (ser : pyval)
  (opts : Options.t) (a : t) (ref : adapter_ref) (old : odict adapter_ref) :
  cassette_exists path_exists (init ref old) = false
  /\ cassette_exists path_exists (snd (load_cassette g now name ser opts a))
     = negb (String.eqb name EmptyString) && path_exists name.
Proof.
  split; [reflexivity|].
  destruct (load_cassette_arguments g now name ser opts a)
    as (_ & Hname & _).
  unfold cassette_exists. rewrite Hname. simpl.
  now destruct (negb (String.eqb name EmptyString) && path_exists name).
Qed.

End LoadCassetteFailures.

(** ** The session controller: any state, failures, [use_cassette] *)

Section ControllerFacts.

Context {host : Host} {client : HostClient}.

Hypothesis mount_is_lawful : lawful_mount client.

Lemma mount_keys_other (keys : list string) (adapter : adapter_ref)
  (k : string) :
  forall s : Session,
    ~ In k keys ->
    dict_get k (adapters (fold_left (fun s k' => mount k' adapter s) keys s))
    = dict_get k (adapters s).
Proof.
  induction keys as [|k0 keys IH]; simpl; intros s Hnot; auto.
  rewrite IH by tauto. unfold mount. simpl.
  apply (mount_other mount_is_lawful). intros ->. tauto.
Qed.

(** Whatever has been mounted on the session since the controller was
    built, [start] puts the interception adapter on the prefixes of the
    snapshot taken then, and leaves every other prefix as it is. *)
Theorem start_mounts_on_the_snapshot_only (bm : Betamax.t) (k : string) :
  dict_get k (adapters (Betamax.session (Betamax.start bm)))
  = if in_dec string_dec k (dict_keys (Betamax.http_adapters bm))
    then Some (BetamaxAdapter.self_ref (Betamax.betamax_adapter bm))
    else dict_get k (adapters (Betamax.session bm)).
Proof.
  unfold Betamax.start. simpl.
  destruct (in_dec string_dec k (dict_keys (Betamax.http_adapters bm)))
    as [Hin|Hnot].
  - now apply (mount_keys_get mount_is_lawful).
  - now apply mount_keys_other.
Qed.

(** From any state of the session, also without a [start] before or after
    an earlier [stop], a [stop] in which ejecting does not raise puts every
    prefix of the snapshot back on the adapter it had when the controller
    was built, and leaves every other prefix as it is. *)
Theorem stop_restores_the_snapshot_only (bm : Betamax.t) :
  wf_dict (Betamax.http_adapters bm) ->
  (forall c, Betamax.current_cassette bm = Some c -> fst (eject c) = Ok tt) ->
  exists bm',
    Betamax.stop bm = (Ok tt, bm')
    /\ Betamax.current_cassette bm' = None
    /\ forall k,
         dict_get k (adapters (Betamax.session bm'))
         = match dict_get k (Betamax.http_adapters bm) with
           | Some v => Some v
           | None => dict_get k (adapters (Betamax.session bm))
           end.
Proof.
  intros Hwf Heject.
  unfold Betamax.current_cassette in *.
  unfold Betamax.stop, Betamax.on_adapter, BetamaxAdapter.eject_cassette,
    BetamaxAdapter.close, BetamaxAdapter.on_cassette, bind, get, put, ret.
  simpl.
  assert (Hrestore : forall s k,
            dict_get k (adapters
              (fold_left (fun s0 kv => mount (fst kv) (snd kv) s0)
                 (Betamax.http_adapters bm) s))
            = match dict_get k (Betamax.http_adapters bm) with
              | Some v => Some v
              | None => dict_get k (adapters s)
              end).
  { intros s k. destruct (dict_get k (Betamax.http_adapters bm)) as [v|] eqn:E.
    - apply dict_get_In in E. now apply (mount_items_get mount_is_lawful).
    - apply dict_get_None_keys in E.
      now apply (mount_items_other mount_is_lawful). }
  destruct (BetamaxAdapter.cassette (Betamax.betamax_adapter bm))
    as [c|] eqn:Ec; simpl.
  - rewrite Ec. specialize (Heject c eq_refl).
    destruct (eject c) as [r c1]. simpl in Heject. subst r. simpl.
    eexists. split; [reflexivity|]. split; [reflexivity|].
    intros k. apply Hrestore.
  - eexists. split; [reflexivity|]. split; [reflexivity|].
    intros k. apply Hrestore.
Qed.

(** When ejecting the cassette raises, [stop] raises the same exception and
    goes no further: the session keeps the adapters it had, the interception
    adapter is not closed and its cassette stays loaded. *)
Theorem stop_failure_leaves_session_intercepted (bm : Betamax.t)
  (c c' : Cassette.t) (e : exn) :
  Betamax.current_cassette bm = Some c ->
  eject c = (Raise e, c') ->
  exists bm',
    Betamax.stop bm = (Raise e, bm')
    /\ Betamax.session bm' = Betamax.session bm
    /\ Betamax.current_cassette bm' = Some c'
    /\ BetamaxAdapter.calls (Betamax.betamax_adapter bm')
       = (BetamaxAdapter.calls (Betamax.betamax_adapter bm) ++ [EvEject])%list.
Proof.
  unfold Betamax.current_cassette. intros Hc He.
  unfold Betamax.stop, Betamax.on_adapter, BetamaxAdapter.eject_cassette,
    BetamaxAdapter.close, BetamaxAdapter.on_cassette, bind, get, put, ret.
  simpl. rewrite Hc. simpl. rewrite Hc, He. simpl.
  eexists. repeat split.
Qed.

(** [__exit__] does what [stop] does and then returns [False] when some
    argument is true and [None] when none is: never a true value, so it
    never swallows the exception of the block; when [stop] raises, so does
    it. *)
Theorem exit_never_suppresses (ex_args : list pyval) (bm : Betamax.t) :
  match Betamax.stop bm with
  | (Ok _, bm') =>
      exists v, Betamax.exit ex_args bm = (Ok v, bm')
                /\ v = (if existsb py_truthy ex_args
                        then PyBool false else PyNone)
                /\ py_truthy v = false
  | (Raise e, bm') => Betamax.exit ex_args bm = (Raise e, bm')
  end.
Proof.
  unfold Betamax.exit, bind.
  destruct (Betamax.stop bm) as [[[]|e] bm']; [|reflexivity].
  destruct (existsb py_truthy ex_args); unfold ret; eexists;
    (split; [reflexivity|]); split; reflexivity.
Qed.

End ControllerFacts.

Lemma dict_set_In {V : Type} (k : string) (v : V) (d : odict V) :
  In (k, v) (dict_set k v d).
Proof. apply dict_get_In, dict_get_set_same. Qed.

Section UseCassetteFacts.

Context {host : Host}.

Variable can_be_loaded : pyval -> string -> pyval -> pyval -> result bool.

(** When [Cassette.can_be_loaded] says no, [use_cassette] raises a
    [ValueError] and leaves the controller and its adapter as they were: the
    cassette loaded before stays in use. *)
Theorem use_cassette_refuses_without_loading (g : globals) (now : datetime)
  (name : string) (raw : dict) (bm : Betamax.t) (opts : Options.t) :
  Options.init g raw = Ok opts ->
  can_be_loaded (CASSETTE_LIBRARY_DIR g) name (chosen_serializer opts)
    (Options.getitem opts "record") = Ok false ->
  Betamax.use_cassette can_be_loaded g now name raw bm
  = (Raise (ValueError "Cassette must have a valid name and may not be None."),
     bm).
Proof.
  intros Hinit Hno.
  unfold Betamax.use_cassette, bind, get, lift, raise. rewrite Hinit. simpl.
  unfold Configuration.cassette_library_dir.
  assert (Hrecord : Options.getitem
                      (Options.setitem opts "cassette_library_dir"
                         (CASSETTE_LIBRARY_DIR g)) "record"
                    = Options.getitem opts "record").
  { unfold Options.getitem, Options.setitem, dict_get_or. simpl.
    now rewrite dict_get_set_other by discriminate. }
  rewrite Hrecord. fold (chosen_serializer opts). now rewrite Hno.
Qed.

(** When [use_cassette] goes on to load, the library directory the adapter
    gets is the process-wide one, whatever [cassette_library_dir] the
    caller gave among the keyword arguments; the name and the serializer
    chosen are set on the adapter. *)
Theorem use_cassette_takes_library_dir_from_configuration (g : globals)
  (now : datetime) (name : string) (raw : dict) (bm : Betamax.t)
  (opts : Options.t) :
  wf_dict raw ->
  Options.init g raw = Ok opts ->
  can_be_loaded (CASSETTE_LIBRARY_DIR g) name (chosen_serializer opts)
    (Options.getitem opts "record") = Ok true ->
  let a' := Betamax.betamax_adapter
              (snd (Betamax.use_cassette can_be_loaded g now name raw bm)) in
  dict_get "cassette_library_dir" (BetamaxAdapter.options a')
  = Some (CASSETTE_LIBRARY_DIR g)
  /\ BetamaxAdapter.cassette_name a' = Some name
  /\ BetamaxAdapter.serialize a' = chosen_serializer opts.
Proof.
  intros Hwf Hinit Hyes a'.
  assert (Hdata : wf_dict (Options.data opts)).
  { unfold Options.init in Hinit.
    destruct (Options.validate g raw) as [[[]|e] d] eqn:Hv; [|discriminate].
    destruct (Options.translate_cassette_options g); [|discriminate].
    injection Hinit as <-. simpl.
    destruct (validate_items_shrinks g raw raw) as [_ Hshrink].
    unfold Options.validate in Hv. rewrite Hv in Hshrink. now apply Hshrink. }
  assert (Hrecord : Options.getitem
                      (Options.setitem opts "cassette_library_dir"
                         (CASSETTE_LIBRARY_DIR g)) "record"
                    = Options.getitem opts "record").
  { unfold Options.getitem, Options.setitem, dict_get_or. simpl.
    now rewrite dict_get_set_other by discriminate. }
  unfold a', Betamax.use_cassette, bind, get, lift, raise. rewrite Hinit.
  simpl. unfold Configuration.cassette_library_dir.
  rewrite Hrecord. fold (chosen_serializer opts). rewrite Hyes.
  unfold Betamax.on_adapter.
  destruct (load_cassette_arguments g now name
              (chosen_serializer opts)
              (Options.setitem opts "cassette_library_dir"
                 (CASSETTE_LIBRARY_DIR g))
              (Betamax.betamax_adapter bm))
    as (Hopts & Hname & Hser & _).
  destruct (BetamaxAdapter.load_cassette g now name _ _ _) as [r a1].
  simpl in *. rewrite Hopts. repeat split; auto.
  apply dict_update_get_In.
  - now apply wf_dict_set.
  - apply dict_set_In.
Qed.

End UseCassetteFacts.

(** ** Registering a matcher *)

Lemma py_all_weaken (f f' : pyval -> result bool) (l : list pyval) :
  (forall x, f x = Ok true -> f' x = Ok true) ->
  py_all f l = Ok true -> py_all f' l = Ok true.
Proof.
  intros Hff'. induction l as [|x l IH]; simpl; auto.
  destruct (f x) as [[|]|e] eqn:E; try discriminate.
  rewrite (Hff' x E). exact IH.
Qed.

Lemma registry_add_In (name n : string) (keys : list string) :
  In n (Betamax.registry_add name keys) <-> n = name \/ In n keys.
Proof.
  unfold Betamax.registry_add.
  destruct (existsb (String.eqb name) keys) eqn:E.
  - split; [tauto|]. intros [->|H]; auto.
    apply existsb_exists in E. destruct E as (x & Hx & Heq).
    apply String.eqb_eq in Heq. now subst.
  - rewrite in_app_iff. simpl. intuition.
Qed.

(** Once a matcher is registered under a name, a list of matchers that was
    accepted is still accepted, also with that name added to it; the tables
    of defaults are untouched. *)
Theorem registered_matcher_is_accepted (name : string) (g : globals)
  (ms : list pyval) :
  Options.validate_matchers g (PyList ms) = Ok true ->
  let g' := Betamax.register_request_matcher name g in
  Options.validate_matchers g' (PyList ms) = Ok true
  /\ Options.validate_matchers g' (PyList (ms ++ [PyStr name])) = Ok true
  /\ default_cassette_options g' = default_cassette_options g
  /\ CASSETTE_LIBRARY_DIR g' = CASSETTE_LIBRARY_DIR g.
Proof.
  intros Hms g'. unfold Options.validate_matchers in *. simpl in *.
  assert (Hmono : forall x,
            Ok (py_in x (map PyStr (matcher_registry g))) = Ok true ->
            Ok (py_in x (map PyStr
                           (Betamax.registry_add name (matcher_registry g))))
            = Ok true).
  { intros x Hx. injection Hx as Hx. f_equal.
    apply py_in_strs in Hx. destruct Hx as (s & -> & Hs).
    apply py_in_strs. exists s. split; auto.
    apply registry_add_In. now right. }
  assert (Hall := py_all_weaken _ _ ms Hmono Hms).
  repeat split; auto.
  apply py_all_app; auto. f_equal.
  apply py_in_strs. exists name. split; auto.
  apply registry_add_In. now left.
Qed.

(** ** The further properties on concrete inputs *)

Ltac wf_by_computation :=
  unfold wf_dict; simpl;
  repeat (constructor; [simpl; intuition discriminate|]); constructor.

Ltac entries_by_computation :=
  let kv := fresh "kv" in
  let H := fresh "H" in
  intros kv H; simpl in H;
  repeat (destruct H as [H|H]; [subst kv; eexists; reflexivity|]);
  destruct H.

Lemma validate_is_idempotent_witness :
  Options.validate initial_globals
    (snd (Options.validate initial_globals mixed_options))
  = (Ok tt, snd (Options.validate initial_globals mixed_options)).
Proof.
  apply (@validate_is_idempotent initial_globals mixed_options).
  - wf_by_computation.
  - entries_by_computation.
Defined.

Lemma options_hold_exactly_the_valid_entries_witness :
  exists opts,
    Options.init initial_globals mixed_options = Ok opts
    /\ forall k v,
         In (k, v) mixed_options ->
         if survives initial_globals (k, v)
         then Options.contains opts k = true /\ Options.getitem opts k = v
         else Options.contains opts k = false.
Proof.
  apply (@options_hold_exactly_the_valid_entries initial_globals
           initial_default_cassette_options mixed_options).
  - reflexivity.
  - wf_by_computation.
  - entries_by_computation.
Defined.

Lemma options_fall_back_on_class_defaults_witness :
  Options.getitem (options_of initial_globals mixed_options) "serialize"
  = dict_get_or "serialize" PyNone Options.class_defaults.
Proof.
  apply (@options_fall_back_on_class_defaults initial_globals
           initial_default_cassette_options mixed_options
           (options_of initial_globals mixed_options) "serialize").
  - reflexivity.
  - reflexivity.
  - reflexivity.
  - simpl. intuition discriminate.
  - discriminate.
Defined.

Lemma betamax_sets_library_dir_witness :
  Configuration.cassette_library_dir Configuration.init
    (snd (Betamax.init 0 {| adapters := default_adapters |}
            (PyStr "tests/cassettes") [] initial_globals))
  = PyStr "tests/cassettes".
Proof.
  eapply (@betamax_sets_library_dir_when_truthy 0
            {| adapters := default_adapters |} (PyStr "tests/cassettes") []
            initial_globals _ _ _ Configuration.init).
  Unshelve.
  all: try reflexivity.
Defined.

Lemma define_cassette_placeholder_needs_a_list_witness :
  let g := set_default_cassette_options initial_globals
             (PyDict [("record_mode"%string, PyStr "all")]) in
  Configuration.define_cassette_placeholder (PyStr "<URI>")
    (PyStr "http://httpbin.org") (Configuration.init, g)
  = (Raise (KeyError "placeholders"), (Configuration.init, g)).
Proof.
  intros g.
  apply (@define_cassette_placeholder_needs_a_list Configuration.init g
           [("record_mode"%string, PyStr "all")] (PyStr "<URI>")
           (PyStr "http://httpbin.org")); reflexivity.
Defined.

Lemma defined_placeholders_stay_valid_witness :
  exists g',
    Configuration.define_cassette_placeholder (PyStr "<URI>")
      (PyStr "http://httpbin.org") (Configuration.init, initial_globals)
    = (Ok tt, (Configuration.init, g'))
    /\ py_getitem (default_cassette_options g') "placeholders"
       = Ok (PyList ([] ++ [placeholder_entry (PyStr "<URI>")
                              (PyStr "http://httpbin.org")]))
    /\ Options.validate_placeholders
         (PyList ([] ++ [placeholder_entry (PyStr "<URI>")
                           (PyStr "http://httpbin.org")])) = Ok true.
Proof.
  apply (@defined_placeholders_stay_valid Configuration.init initial_globals
           initial_default_cassette_options [] (PyStr "<URI>")
           (PyStr "http://httpbin.org")); reflexivity.
Defined.

Lemma send_replays_a_match_witness :
  let a := BetamaxAdapter.set_cassette
             (BetamaxAdapter.init (Interceptor 0) default_adapters)
             (Some (recorded_cassette "none")) in
  BetamaxAdapter.send (host := host1) sample_request sample_args a
  = (Ok (set_connection sample_live (Some (Interceptor 0))),
     BetamaxAdapter.set_cassette
       (BetamaxAdapter.log (EvFindMatch sample_request) a)
       (Some (recorded_cassette "none"))).
Proof.
  intros a.
  apply (@send_replays_a_match host1 a (recorded_cassette "none")
           (recorded_cassette "none") sample_request sample_args
           old_interaction).
  - reflexivity.
  - discriminate.
  - reflexivity.
Defined.

Lemma send_on_empty_cassette_witness :
  let a := sample_adapter default_adapters "new_episodes" in
  exists rest,
    BetamaxAdapter.calls
      (snd (BetamaxAdapter.send (host := host0) sample_request sample_args a))
    = (BetamaxAdapter.calls a ++ EvIsRecording :: rest)%list
    /\ existsb is_find_match rest = false.
Proof.
  intros a.
  apply (@send_on_empty_cassette_skips_lookup host0 a
           (sample_cassette "new_episodes") sample_request sample_args);
    reflexivity.
Defined.

Lemma send_propagates_a_transport_error_witness :
  let a := sample_adapter default_adapters "new_episodes" in
  let sent := {| stream := true;
                 timeout := PyNone;
                 verify := PyBool true;
                 cert := PyNone;
                 proxies := PyNone |} in
  stream sample_args = false
  /\ exists a',
      BetamaxAdapter.send (host := offline_host) sample_request sample_args a
      = (Raise (HostError "ConnectionError"), a')
      /\ BetamaxAdapter.cassette a' = Some (sample_cassette "new_episodes")
      /\ BetamaxAdapter.calls a'
         = (BetamaxAdapter.calls a
            ++ lookup_calls sample_request (sample_cassette "new_episodes")
            ++ [EvIsRecording;
                EvTransportSend (HostAdapter 1) sample_request sent])%list.
Proof.
  intros a sent. split; [reflexivity|].
  apply (@send_propagates_a_transport_error offline_host a
           (sample_cassette "new_episodes") (sample_cassette "new_episodes")
           sample_request sample_args (HostAdapter 1)
           (HostError "ConnectionError")).
  - reflexivity.
  - left. split; reflexivity.
  - reflexivity.
  - reflexivity.
  - reflexivity.
Defined.

Lemma send_without_matching_prefix_witness :
  let a := sample_adapter [("https://"%string, HostAdapter 0)]
             "new_episodes" in
  exists a',
    BetamaxAdapter.send (host := host0) sample_request sample_args a
    = (Raise AttributeError, a')
    /\ BetamaxAdapter.cassette a' = Some (sample_cassette "new_episodes")
    /\ BetamaxAdapter.calls a'
       = (BetamaxAdapter.calls a
          ++ lookup_calls sample_request (sample_cassette "new_episodes")
          ++ [EvIsRecording])%list.
Proof.
  intros a.
  apply (@send_without_matching_prefix host0 a
           (sample_cassette "new_episodes") (sample_cassette "new_episodes")
           sample_request sample_args).
  - reflexivity.
  - left. split; reflexivity.
  - reflexivity.
  - intros p h [Heq|[]]. inversion Heq. reflexivity.
Defined.

Lemma eject_cassette_twice_witness :
  let a1 := snd (BetamaxAdapter.eject_cassette (host := host0)
                   (sample_adapter default_adapters "once")) in
  BetamaxAdapter.eject_cassette (host := host0) a1 = (Ok tt, a1).
Proof.
  intros a1.
  apply (@eject_cassette_twice host0 (sample_adapter default_adapters "once")
           a1).
  reflexivity.
Defined.

Lemma eject_cassette_failure_witness :
  let a := sample_adapter default_adapters "once" in
  BetamaxAdapter.eject_cassette (host := read_only_host) a
  = (Raise (HostError "IOError"),
     BetamaxAdapter.set_cassette (BetamaxAdapter.log EvEject a)
       (Some (sample_cassette "once"))).
Proof.
  intros a.
  apply (@eject_cassette_failure_keeps_cassette read_only_host a
           (sample_cassette "once") (sample_cassette "once")
           (HostError "IOError")); reflexivity.
Defined.

Lemma load_cassette_accumulates_options_witness :
  let a0 := BetamaxAdapter.init (Interceptor 0) default_adapters in
  let a1 := snd (BetamaxAdapter.load_cassette (host := host1) initial_globals
                   sample_now "first" (PyStr "json") all_mode_options a0) in
  let a2 := snd (BetamaxAdapter.load_cassette (host := host1) initial_globals
                   sample_now "second" (PyStr "json") one_day_options a1) in
  dict_get "record" (BetamaxAdapter.options a2) = Some (PyStr "all")
  /\ BetamaxAdapter.cassette_name a2 = Some "second"%string
  /\ BetamaxAdapter.serialize a2 = PyStr "json".
Proof.
  intros a0 a1 a2.
  apply (@load_cassette_accumulates_options host1 initial_globals sample_now
           "second" (PyStr "json") one_day_options a1 "record" (PyStr "all")).
  - reflexivity.
  - simpl. intuition discriminate.
Defined.

Lemma load_cassette_reads_default_matchers_first_witness :
  let g := set_default_cassette_options initial_globals
             (PyDict [("record_mode"%string, PyStr "all")]) in
  let opts := options_of g
                [("match_requests_on"%string, PyList [PyStr "uri"])] in
  let a := sample_adapter default_adapters "once" in
  Options.getitem opts "match_requests_on" = PyList [PyStr "uri"]
  /\ BetamaxAdapter.load_cassette (host := host1) g sample_now "example"
       (PyStr "json") opts a
     = (Raise (KeyError "match_requests_on"),
        BetamaxAdapter.set_load_arguments a "example" (PyStr "json")
          (dict_update (BetamaxAdapter.options a) (Options.items opts))).
Proof.
  intros g opts a. split; [reflexivity|].
  apply (@load_cassette_reads_default_matchers_first host1 g sample_now
           "example" (PyStr "json") opts a
           [("record_mode"%string, PyStr "all")]); reflexivity.
Defined.

Lemma load_cassette_interval_overflow_witness :
  let a := BetamaxAdapter.init (Interceptor 0) default_adapters in
  exists a',
    BetamaxAdapter.load_cassette (host := host1) initial_globals sample_now
      "example" (PyStr "json") huge_interval_options a
    = (Raise OverflowError, a')
    /\ BetamaxAdapter.cassette a'
       = Some (Cassette.set_match_options loaded_cassette
                 (PyList [PyStr "method"; PyStr "uri"]))
    /\ BetamaxAdapter.calls a'
       = (BetamaxAdapter.calls a ++ [EvCassetteInit "example"])%list.
Proof.
  intros a.
  apply (@load_cassette_interval_overflow host1 initial_globals sample_now
           "example" (PyStr "json") huge_interval_options a
           (PyList [PyStr "method"; PyStr "uri"]) loaded_cassette 1000000000).
  - reflexivity.
  - lia.
  - reflexivity.
  - reflexivity.
Defined.

Lemma start_mounts_on_the_snapshot_only_witness :
  let bm := Betamax.set_session sample_controller
              {| adapters := requests_mount "ftp://" (HostAdapter 2)
                               default_adapters |} in
  dict_get "http://"
    (adapters (Betamax.session (Betamax.start (client := requests_client) bm)))
  = Some (Interceptor 0)
  /\ dict_get "ftp://"
       (adapters (Betamax.session
                    (Betamax.start (client := requests_client) bm)))
     = Some (HostAdapter 2).
Proof.
  intros bm. split.
  - exact (@start_mounts_on_the_snapshot_only requests_client
             requests_client_lawful bm "http://").
  - exact (@start_mounts_on_the_snapshot_only requests_client
             requests_client_lawful bm "ftp://").
Defined.

Lemma stop_restores_the_snapshot_only_witness :
  exists bm',
    Betamax.stop (host := host0) (client := requests_client) sample_controller
    = (Ok tt, bm')
    /\ Betamax.current_cassette bm' = None
    /\ forall k,
         dict_get k (adapters (Betamax.session bm'))
         = match dict_get k (Betamax.http_adapters sample_controller) with
           | Some v => Some v
           | None => dict_get k (adapters (Betamax.session sample_controller))
           end.
Proof.
  apply (@stop_restores_the_snapshot_only host0 requests_client
           requests_client_lawful sample_controller).
  - wf_by_computation.
  - intros c _. reflexivity.
Defined.

Lemma stop_failure_witness :
  let bm := Betamax.start (client := requests_client) sample_controller in
  exists bm',
    Betamax.stop (host := read_only_host) (client := requests_client) bm
    = (Raise (HostError "IOError"), bm')
    /\ Betamax.session bm' = Betamax.session bm
    /\ Betamax.current_cassette bm' = Some (sample_cassette "once")
    /\ BetamaxAdapter.calls (Betamax.betamax_adapter bm')
       = (BetamaxAdapter.calls (Betamax.betamax_adapter bm) ++ [EvEject])%list.
Proof.
  intros bm.
  apply (@stop_failure_leaves_session_intercepted read_only_host
           requests_client bm (sample_cassette "once")
           (sample_cassette "once") (HostError "IOError")); reflexivity.
Defined.

Lemma use_cassette_refuses_witness :
  Betamax.use_cassette (host := host0) sample_can_be_loaded initial_globals
    sample_now "example" [("record"%string, PyStr "none")] sample_controller
  = (Raise (ValueError "Cassette must have a valid name and may not be None."),
     sample_controller).
Proof.
  apply (@use_cassette_refuses_without_loading host0 sample_can_be_loaded
           initial_globals sample_now "example"
           [("record"%string, PyStr "none")] sample_controller
           (options_of initial_globals [("record"%string, PyStr "none")]));
    reflexivity.
Defined.

Lemma use_cassette_takes_library_dir_witness :
  let raw := [("cassette_library_dir"%string, PyStr "elsewhere");
              ("serialize"%string, PyStr "json")] in
  let a' := Betamax.betamax_adapter
              (snd (Betamax.use_cassette (host := host0) sample_can_be_loaded
                      initial_globals sample_now "example" raw
                      sample_controller)) in
  dict_get "cassette_library_dir" (BetamaxAdapter.options a')
  = Some (PyStr "vcr/cassettes")
  /\ BetamaxAdapter.cassette_name a' = Some "example"%string
  /\ BetamaxAdapter.serialize a' = PyStr "json".
Proof.
  intros raw a'.
  apply (@use_cassette_takes_library_dir_from_configuration host0
           sample_can_be_loaded initial_globals sample_now "example" raw
           sample_controller (options_of initial_globals raw)).
  - wf_by_computation.
  - reflexivity.
  - reflexivity.
Defined.

Lemma registered_matcher_is_accepted_witness :
  let g' := Betamax.register_request_matcher "query" initial_globals in
  Options.validate_matchers initial_globals
    (PyList [PyStr "method"; PyStr "query"]) = Ok false
  /\ Options.validate_matchers g' (PyList [PyStr "method"]) = Ok true
  /\ Options.validate_matchers g' (PyList ([PyStr "method"] ++ [PyStr "query"]))
     = Ok true
  /\ default_cassette_options g' = default_cassette_options initial_globals
  /\ CASSETTE_LIBRARY_DIR g' = CASSETTE_LIBRARY_DIR initial_globals.
Proof.
  intros g'. split; [reflexivity|].
  apply (@registered_matcher_is_accepted "query" initial_globals
           [PyStr "method"]).
  reflexivity.
Defined.
